(** * Evidence highlighting in [app.py]

    A shallow embedding of the text functions of
    [intelligent-mutual-fund-prospectus-document-processing/app.py]
    ([clean_question], [markdown_bgcolor], [markdown_fgcolor], [markdown2],
    [markdown_escape]), of the two highlighting passes at the end of [main]
    and of the module-level [BUCKET_NAME] check, with the properties of the
    specification proved or refuted about them.

    Python [str] values are lists of characters, character offsets are
    integers ([Z], as Python's [int]), [os.environ] is a finite map, and the
    calls that leave the module ([print], the three span searches of
    [utils.utils_text], the Streamlit calls) are recorded in a log threaded
    through a small state monad. *)

From Stdlib Require Import ZArith Ascii String List Sorted Lia Bool.
From Stdlib Require Import DecimalString.
From stdpp Require Import base tactics option list strings gmap.

Local Open Scope Z_scope.

(** ** Python strings, slices and truth values *)

(** A Python [str]: the sequence of its characters.  A character is an 8-bit
    code point (the Latin-1 range of Unicode). *)
Definition str : Type := list ascii.

(** A string literal of the source. *)
Definition lit (s : string) : str := list_ascii_of_string s.

Definition chr (n : nat) : ascii := ascii_of_nat n.
Definition ord (c : ascii) : nat := nat_of_ascii c.

(** Python's adjustment of one slice bound against a sequence of length
    [len] (step 1): a negative bound counts from the end, and the result is
    clamped to [0 .. len]. *)
Definition slice_bound (len i : Z) : Z :=
  let i := if i <? 0 then i + len else i in
  if i <? 0 then 0 else if len <? i then len else i.

(** [text[lo:hi]]; [hi = None] is the open slice [text[lo:]]. *)
Definition slice (text : str) (lo : Z) (hi : option Z) : str :=
  let len := Z.of_nat (length text) in
  let start := slice_bound len lo in
  let stop := match hi with Some h => slice_bound len h | None => len end in
  take (Z.to_nat (stop - start)) (drop (Z.to_nat start) text).

(** An optional argument whose default is [None]. *)
Definition pyopt : Type := option str.

(** Truth value of such an argument in [if x:]: [None] and the empty string
    are false. *)
Definition truthy (x : pyopt) : bool :=
  match x with
  | Some (_ :: _) => true
  | _ => false
  end.

(** What an f-string field [{x}] prints. *)
Definition fmt (x : pyopt) : str :=
  match x with
  | Some s => s
  | None => lit "None"
  end.

(** ** [clean_question]

    [re.sub(r"^[\d\.\s]+", "", s)]: without [re.MULTILINE] the anchor [^]
    matches at offset 0 only, so the one possible match is the longest
    leading run of characters of the class, and it is replaced by the empty
    string. *)

(** [\d] on a [str] pattern: the decimal digits (in this range, [0]-[9]). *)
Definition is_digit (c : ascii) : bool :=
  let n := ord c in ((48 <=? n) && (n <=? 57))%nat.

(** [\s] on a [str] pattern: tab to carriage return, the four separators
    FS..US, space, NEL and the no-break space. *)
Definition is_space (c : ascii) : bool :=
  let n := ord c in
  (((9 <=? n) && (n <=? 13)) || ((28 <=? n) && (n <=? 32))
   || (n =? 133) || (n =? 160))%nat.

(** The class [[\d\.\s]]. *)
Definition heading_char (c : ascii) : bool :=
  is_digit c || (ord c =? 46)%nat || is_space c.

Fixpoint lstrip_class (p : ascii -> bool) (s : str) : str :=
  match s with
  | [] => []
  | c :: rest => if p c then lstrip_class p rest else s
  end.

Definition clean_question (s : str) : str := lstrip_class heading_char s.

(** ** The two style markers *)

Definition dquote : ascii := chr 34.

(** [f'<span style="background-color:{bg_color};">{text}</span>'] *)
Definition markdown_bgcolor (text : str) (bg_color : pyopt) : str :=
  lit "<span style=" ++ [dquote] ++ lit "background-color:" ++ fmt bg_color
    ++ lit ";" ++ [dquote] ++ lit ">" ++ text ++ lit "</span>".

(** [f":{fg_color}[{text}]"] *)
Definition markdown_fgcolor (text : str) (fg_color : pyopt) : str :=
  lit ":" ++ fmt fg_color ++ lit "[" ++ text ++ lit "]".

(** ** [markdown_escape]

    [re.sub(r"([\$\+\#\`\{\}])", "\\\1", text)].  The replacement is an
    ordinary (not raw) string literal: [\\] is one backslash and [\1] is the
    octal escape for the character U+0001, so the template handed to
    [re.sub] is backslash, U+0001.  In a template a backslash before a
    character that is neither a digit, [g], a letter nor a known escape is
    kept together with that character: every match is replaced by these two
    characters, and the group is never referred to. *)

Definition markup_char (c : ascii) : bool :=
  let n := ord c in
  ((n =? 36) || (n =? 43) || (n =? 35) || (n =? 96) || (n =? 123)
   || (n =? 125))%nat.

Definition backslash : ascii := chr 92.

Definition escape_template : str := [backslash; chr 1].

Fixpoint markdown_escape (text : str) : str :=
  match text with
  | [] => []
  | c :: rest =>
      (if markup_char c then escape_template else [c]) ++ markdown_escape rest
  end.

(** ** The log of outside calls, and the state monad threading it *)

(** A character range [(start, end)] of a text. *)
Definition span : Type := Z * Z.

(** The three searches imported from [utils.utils_text]. *)
Inductive tier : Type := Ordered | Compact | AllOccurrences.

(** A value handed to [print]. *)
Inductive pyval : Type :=
  | Str (s : str)
  | Tokens (tokens : list str)
  | Spans (spans : list span).

(** A call of a Streamlit function. *)
Inductive st_call : Type :=
  | set_page_config (page_title layout : str)
  | st_write (body : str) (unsafe_allow_html : bool)
  | st_markdown (body : str) (unsafe_allow_html : bool).

Inductive event : Type :=
  | Printed (args : list pyval)
  | Called (t : tier) (text : str) (tokens : list str)
  | Streamlit (c : st_call).

Definition log : Type := list event.

Definition M (A : Type) : Type := log -> A * log.

Definition ret {A} (a : A) : M A := fun w => (a, w).

Definition bind {A B} (m : M A) (f : A -> M B) : M B :=
  fun w => let '(a, w') := m w in f a w'.

Definition emit (e : event) : M unit := fun w => (tt, w ++ [e]).

Notation "'let*' x := m 'in' k" := (bind m (fun x => k))
  (at level 10, x name, m at level 100, k at level 200).
Notation "m ;; k" := (bind m (fun _ => k))
  (at level 100, k at level 200, right associativity).

Definition print (args : list pyval) : M unit := emit (Printed args).

(** The searches a log shows as invoked, with their arguments, in the order
    of the calls. *)
Fixpoint calls_made (w : log) : list (tier * str * list str) :=
  match w with
  | [] => []
  | Called t text tokens :: rest => (t, text, tokens) :: calls_made rest
  | _ :: rest => calls_made rest
  end.

(** ** [utils.utils_text]

    The module is imported by [app.py] and is not part of the sources: its
    three searches are an interface, each a function of the text and the
    tokens to a list of spans. *)
Record UtilsText : Type := {
  spans_of_tokens_ordered : str -> list str -> list span;
  spans_of_tokens_compact : str -> list str -> list span;
  spans_of_tokens_all : str -> list str -> list span
}.

Definition search (U : UtilsText) (t : tier) : str -> list str -> list span :=
  match t with
  | Ordered => spans_of_tokens_ordered U
  | Compact => spans_of_tokens_compact U
  | AllOccurrences => spans_of_tokens_all U
  end.

(** A call of one search: the call is logged and its result returned. *)
Definition call (U : UtilsText) (t : tier) (text : str) (tokens : list str)
  : M (list span) :=
  emit (Called t text tokens) ;; ret (search U t text tokens).

(** [not spans] *)
Definition no_spans (spans : list span) : bool :=
  match spans with
  | [] => true
  | _ :: _ => false
  end.

(** ** [markdown2] *)

(** The loop [for i, j in spans], on the two variables [output] and [k]. *)
Fixpoint markdown2_loop (text : str) (fg_color bg_color : pyopt)
    (spans : list span) (output : str) (k : Z) : str * Z :=
  match spans with
  | [] => (output, k)
  | (i, j) :: rest =>
      let output := output ++ slice text k (Some i) in
      let k := j in
      let output :=
        if truthy bg_color
        then output ++ markdown_bgcolor (slice text i (Some j)) bg_color
        else output ++ markdown_fgcolor (slice text i (Some j)) fg_color in
      markdown2_loop text fg_color bg_color rest output k
  end.

(** Lines 142-152: the loop from [output, k = "", 0], then the tail
    [text[k:]]. *)
Definition markdown2_output (text : str) (spans : list span)
    (fg_color bg_color : pyopt) : str :=
  let '(output, k) := markdown2_loop text fg_color bg_color spans [] 0 in
  output ++ slice text k None.

(** Lines 132-140: the choice of the spans. *)
Definition markdown2_spans (U : UtilsText) (text : str) (tokens : list str)
  : M (list span) :=
  let* spans :=
    (if Z.of_nat (length tokens) <? 20 then
       let* spans := call U Ordered text tokens in
       if no_spans spans then
         let* spans := call U Compact text tokens in
         print [Str (lit "spans_of_tokens_compact:"); Spans spans] ;;
         ret spans
       else ret spans
     else ret []) in
  if no_spans spans then
    let* spans := call U AllOccurrences text tokens in
    print [Str (lit "spans_of_tokens_all:"); Spans spans] ;;
    ret spans
  else ret spans.

Definition markdown2 (U : UtilsText) (text : str) (tokens : list str)
    (fg_color bg_color : pyopt) : M str :=
  print [Str (lit "highlight tokens:"); Tokens tokens] ;;
  let* spans := markdown2_spans U text tokens in
  ret (markdown2_output text spans fg_color bg_color).

(** ** The end of [main]: the two highlighting passes (lines 318-325) *)

Definition highlight_evidence (U : UtilsText) (all_text : str)
    (tokens_answer tokens_miss : list str) : M str :=
  let markd := markdown_escape all_text in
  let* markd := markdown2 U markd tokens_answer None (Some (lit "#90EE90")) in
  let* markd := markdown2 U markd tokens_miss None (Some (lit "red")) in
  print [Str (lit "done")] ;;
  emit (Streamlit (st_markdown markd true)) ;;
  ret markd.

(** ** Module start-up (lines 28-65 and 328)

    The statements the interpreter runs when the module is loaded, after the
    imports: the [BUCKET_NAME] check, three Streamlit calls, and at the end
    of the file the call of [main].  A statement either returns or raises. *)

Inductive result (A : Type) : Type :=
  | Returned (a : A)
  | Raised (message : str).
Arguments Returned {A} a.
Arguments Raised {A} message.

Definition E (A : Type) : Type := log -> result A * log.

Definition lift {A} (m : M A) : E A :=
  fun w => let '(a, w') := m w in (Returned a, w').

Definition raise {A} (message : str) : E A := fun w => (Raised message, w).

Definition then_ {A B} (m : E A) (k : E B) : E B :=
  fun w =>
    match m w with
    | (Returned _, w') => k w'
    | (Raised message, w') => (Raised message, w')
    end.

Definition bucket_message : str :=
  lit "S3 Bucket must be set for Textract processing. Please see README for more information".

(** [if "BUCKET_NAME" not in os.environ: raise Exception(...)] *)
Definition bucket_check (environ : gmap string string) : E unit :=
  if decide (environ !! "BUCKET_NAME"%string = None)
  then raise bucket_message
  else lift (ret tt).

Definition nl : ascii := chr 10.

Definition content_css : str :=
  [nl] ++ lit "<style>" ++ [nl]
  ++ lit "    .reportview-container .main .block-container{" ++ [nl]
  ++ lit "        display: flex;" ++ [nl]
  ++ lit "        justify-content: center;" ++ [nl]
  ++ lit "    }" ++ [nl]
  ++ lit "</style>" ++ [nl].

(** The Streamlit calls of lines 34, 52 and 65. *)
Definition page_setup : list event :=
  [ Streamlit (set_page_config (lit "FSI Q/A App") (lit "wide"));
    Streamlit
      (st_write (lit "<style>div.block-container{padding-top:2rem;}</style>")
         true);
    Streamlit (st_markdown content_css true) ].

Section Startup.

(** The body of [main] (lines 177-325), which talks to services outside
    this file. *)
Variable main : E unit.

Definition module_body (environ : gmap string string) : E unit :=
  then_ (bucket_check environ)
    (then_ (lift (emit (Streamlit
              (set_page_config (lit "FSI Q/A App") (lit "wide")))))
    (then_ (lift (emit (Streamlit
              (st_write
                 (lit "<style>div.block-container{padding-top:2rem;}</style>")
                 true))))
    (then_ (lift (emit (Streamlit (st_markdown content_css true))))
       main))).

End Startup.

(** ** A reading of [utils.utils_text]

    An instance of the interface, to run [markdown2] on concrete texts. *)
Module UtilsTextModel.

Definition is_alnum (c : ascii) : bool :=
  let n := ord c in
  (((48 <=? n) && (n <=? 57)) || ((65 <=? n) && (n <=? 90))
   || ((97 <=? n) && (n <=? 122)))%nat.

Definition lower (c : ascii) : ascii :=
  let n := ord c in
  if ((65 <=? n) && (n <=? 90))%nat then chr (n + 32) else c.

Definition flush (word : str) (pos : Z) : list (str * span) :=
  match word with
  | [] => []
  | _ :: _ => [(word, (pos - Z.of_nat (length word), pos))]
  end.

Fixpoint scan (text : str) (pos : Z) (word : str) : list (str * span) :=
  match text with
  | [] => flush word pos
  | c :: rest =>
      if is_alnum c then scan rest (pos + 1) (word ++ [lower c])
      else flush word pos ++ scan rest (pos + 1) []
  end.

(** Modelled from the spec: the tokenizer of [utils/utils_text.py], a file
    that is not among the sources (section 4.1: split on whitespace and
    punctuation boundaries, lower-case, drop empty units, left to right).
    A token is a maximal run of letters and digits, lower-cased, kept with
    the character offsets of the run in the text. *)
Definition text_tokenizer (text : str) : list (str * span) := scan text 0 [].

(** The windows of a sequence of [n] tokens as (first index, length), the
    shorter first and among equals the leftmost first. *)
Definition windows (n : nat) : list (nat * nat) :=
  flat_map (fun len => map (fun i => (i, len)) (seq 0 (n + 1 - len)))
    (seq 1 n).

Definition window_span (doc : list (str * span)) (i len : nat)
  : list span :=
  match doc !! i, doc !! (i + len - 1)%nat with
  | Some (_, (start, _)), Some (_, (_, stop)) => [(start, stop)]
  | _, _ => []
  end.

Definition first_window (ok : list str -> bool) (doc : list (str * span))
  : list span :=
  match
    List.find (fun w => ok (map fst (take (snd w) (drop (fst w) doc))))
      (windows (length doc))
  with
  | Some (i, len) => window_span doc i len
  | None => []
  end.

(** The tokens occur among the words in this order, each at a place of its
    own. *)
Fixpoint in_order (tokens words : list str) {struct words} : bool :=
  match tokens, words with
  | [], _ => true
  | _ :: _, [] => false
  | t :: ts, w :: ws =>
      if decide (t = w) then in_order ts ws else in_order tokens ws
  end.

Definition contains_all (tokens words : list str) : bool :=
  forallb (fun t => bool_decide (t ∈ words)) tokens.

(** Modelled from the spec: [spans_of_tokens_ordered] of
    [utils/utils_text.py], not among the sources (section 4.2, tier 1: the
    shortest window of the document's tokens in which the target tokens
    appear in their order, the leftmost among equals, as character
    offsets; nothing for no tokens). *)
Definition ordered (text : str) (tokens : list str) : list span :=
  match tokens with
  | [] => []
  | _ :: _ => first_window (in_order tokens) (text_tokenizer text)
  end.

(** Modelled from the spec: [spans_of_tokens_compact] of
    [utils/utils_text.py], not among the sources (section 4.2, tier 2: the
    shortest window containing every target token in any order, the
    leftmost among equals; nothing for no tokens). *)
Definition compact (text : str) (tokens : list str) : list span :=
  match tokens with
  | [] => []
  | _ :: _ => first_window (contains_all tokens) (text_tokenizer text)
  end.

(** Modelled from the spec: [spans_of_tokens_all] of
    [utils/utils_text.py], not among the sources (section 4.2, tier 3: the
    span of every occurrence of every target token, each on its own). *)
Definition all (text : str) (tokens : list str) : list span :=
  map snd
    (List.filter (fun w => bool_decide (fst w ∈ tokens))
       (text_tokenizer text)).

Definition utils : UtilsText :=
  {| spans_of_tokens_ordered := ordered;
     spans_of_tokens_compact := compact;
     spans_of_tokens_all := all |}.

Definition prospectus : str :=
  lit "the fund charges a 2% annual expense ratio and a 1% load fee".

End UtilsTextModel.

(** ** Notions of the statements *)

(** The spans [markdown2] is left with after lines 132-140, as a function of
    what the three searches return. *)
Definition located (U : UtilsText) (text : str) (tokens : list str)
  : list span :=
  let ordered := spans_of_tokens_ordered U text tokens in
  let compact := spans_of_tokens_compact U text tokens in
  let spans :=
    if Z.of_nat (length tokens) <? 20
    then (if no_spans ordered then compact else ordered)
    else [] in
  if no_spans spans then spans_of_tokens_all U text tokens else spans.

(** What one run of [markdown2] appends to the log. *)
Definition trace (U : UtilsText) (text : str) (tokens : list str) : log :=
  let ordered := spans_of_tokens_ordered U text tokens in
  let compact := spans_of_tokens_compact U text tokens in
  let all := spans_of_tokens_all U text tokens in
  let tier3 :=
    [Called AllOccurrences text tokens;
     Printed [Str (lit "spans_of_tokens_all:"); Spans all]] in
  Printed [Str (lit "highlight tokens:"); Tokens tokens]
  :: (if Z.of_nat (length tokens) <? 20
      then Called Ordered text tokens
           :: (if no_spans ordered
               then Called Compact text tokens
                    :: Printed [Str (lit "spans_of_tokens_compact:");
                                Spans compact]
                    :: (if no_spans compact then tier3 else [])
               else [])
      else tier3).

(** The marker put around the text of one span; [if bg_color:] chooses
    between the two. *)
Definition marker (fg_color bg_color : pyopt) (s : str) : str :=
  if truthy bg_color then markdown_bgcolor s bg_color
  else markdown_fgcolor s fg_color.

(** A text from offset [k] on with every span wrapped by [mark], the slices
    being Python's. *)
Fixpoint wrap_spans (mark : str -> str) (text : str) (k : Z)
    (spans : list span) : str :=
  match spans with
  | [] => slice text k None
  | (i, j) :: rest =>
      slice text k (Some i) ++ mark (slice text i (Some j))
      ++ wrap_spans mark text j rest
  end.

(** A span of the data model: [0 <= start < end]. *)
Definition span_ok (s : span) : Prop := 0 <= fst s < snd s.

(** Two spans that do not overlap. *)
Definition apart (a b : span) : Prop := snd a <= fst b \/ snd b <= fst a.

(** Ascending by start offset. *)
Definition by_start (a b : span) : Prop := fst a <= fst b.

(** The characters of [text] from offset [a] up to offset [b], both counted
    from the start of the text. *)
Definition substring (text : str) (a b : Z) : str :=
  take (Z.to_nat b - Z.to_nat a) (drop (Z.to_nat a) text).

(** A piece of the text: outside every span, or the inside of one. *)
Inductive region : Type :=
  | Outside (s : str)
  | Inside (s : str).

(** The text from offset [k] on, cut at the bounds of the spans. *)
Fixpoint regions (text : str) (k : Z) (spans : list span) : list region :=
  match spans with
  | [] => [Outside (drop (Z.to_nat k) text)]
  | (i, j) :: rest =>
      Outside (substring text k i) :: Inside (substring text i j)
      :: regions text j rest
  end.

(** The regions written out, the inside ones wrapped by [mark]. *)
Definition with_markers (mark : str -> str) (rs : list region) : str :=
  concat (map (fun r => match r with Outside s => s | Inside s => mark s end)
            rs).

(** The same with the markers removed. *)
Definition without_markers (rs : list region) : str :=
  concat (map (fun r => match r with Outside s => s | Inside s => s end) rs).

(** Each span ends before the next one starts, the first not before [k]. *)
Fixpoint chained (k : Z) (spans : list span) : Prop :=
  match spans with
  | [] => True
  | (i, j) :: rest => k <= i /\ i <= j /\ chained j rest
  end.

(** What the claim on [markdown_escape] describes: a backslash put before
    each markup character, the character itself kept. *)
Fixpoint backslash_escaped (text : str) : str :=
  match text with
  | [] => []
  | c :: rest =>
      (if markup_char c then [backslash; c] else [c]) ++ backslash_escaped rest
  end.

(** The sample prospectus after a first pass has marked [expense ratio] in
    the colour of the answer tokens. *)
Definition marked_prospectus : str :=
  lit "the fund charges a 2% annual <span style=" ++ [dquote]
  ++ lit "background-color:#90EE90;" ++ [dquote]
  ++ lit ">expense ratio</span> and a 1% load fee".

(** Twenty tokens: [expense], [ratio], and [ratio] eighteen times more. *)
Definition twenty_tokens : list str :=
  lit "expense" :: repeat (lit "ratio") 19.

(** ** String methods of Python used by the rest of [app.py] *)

(** [not s] for a string. *)
Definition no_chars (s : str) : bool :=
  match s with
  | [] => true
  | _ :: _ => false
  end.

(** [s.startswith(prefix)] *)
Fixpoint startswith (s prefix : str) {struct prefix} : bool :=
  match prefix with
  | [] => true
  | p :: prefix' =>
      match s with
      | [] => false
      | c :: s' => bool_decide (c = p) && startswith s' prefix'
      end
  end.

(** [s.endswith(suffix)] *)
Definition endswith (s suffix : str) : bool :=
  (length suffix <=? length s)%nat
  && bool_decide (drop (length s - length suffix) s = suffix).

(** [sub in s] *)
Fixpoint contains (s sub : str) : bool :=
  startswith s sub
  || match s with
     | [] => false
     | _ :: s' => contains s' sub
     end.

(** [s.replace(old, new)] for a non-empty [old], from the left: where [old]
    starts, [new] is written and the characters of [old] are passed over
    ([skip] counts those still to pass); other characters are copied. *)
Fixpoint replace_from (old new : str) (skip : nat) (s : str) : str :=
  match s with
  | [] => []
  | c :: rest =>
      match skip with
      | S n => replace_from old new n rest
      | O =>
          if startswith s old
          then new ++ replace_from old new (length old - 1) rest
          else c :: replace_from old new 0 rest
      end
  end.

(** [s.replace(old, new)]; an empty [old] matches before every character
    and at the end. *)
Definition str_replace (s old new : str) : str :=
  match old with
  | [] => new ++ flat_map (fun c => c :: new) s
  | _ :: _ => replace_from old new 0 s
  end.

(** [c.lower()] in the Latin-1 range: the letters A-Z, and the accented
    capitals U+00C0-U+00DE without the multiplication sign U+00D7. *)
Definition lower_char (c : ascii) : ascii :=
  let n := ord c in
  if (((65 <=? n) && (n <=? 90))
      || ((192 <=? n) && (n <=? 222) && negb (n =? 215)))%nat
  then chr (n + 32) else c.

(** [s.lower()] *)
Definition str_lower (s : str) : str := map lower_char s.

(** [s.strip()]: white space removed at both ends. *)
Definition str_strip (s : str) : str :=
  rev (lstrip_class is_space (rev (lstrip_class is_space s))).

(** [s.rfind(c)] for one character [c]: the last index of [c], or [-1];
    [i] is the index of the head of [s], [last] the answer so far. *)
Fixpoint rfind_from (c : ascii) (s : str) (i last : Z) : Z :=
  match s with
  | [] => last
  | x :: rest => rfind_from c rest (i + 1) (if decide (x = c) then i else last)
  end.

Definition rfind (s : str) (c : ascii) : Z := rfind_from c s 0 (-1).

Definition dot : ascii := chr 46.
Definition slash : ascii := chr 47.
Definition dollar : ascii := chr 36.

(** The loop of [os.path.splitext] that passes over leading dots of the
    file name: [n] positions from [filenameIndex] are left before
    [dotIndex]. *)
Fixpoint splitext_loop (p : str) (dotIndex filenameIndex : Z) (n : nat)
  : str * str :=
  match n with
  | O => (p, slice p 0 (Some 0))
  | S n' =>
      if bool_decide (slice p filenameIndex (Some (filenameIndex + 1)) = [dot])
      then splitext_loop p dotIndex (filenameIndex + 1) n'
      else (slice p 0 (Some dotIndex), slice p dotIndex None)
  end.

(** [os.path.splitext(p)] on a POSIX system: the extension starts at the
    last dot of the last path component, unless only dots come before it. *)
Definition splitext (p : str) : str * str :=
  let sepIndex := rfind p slash in
  let dotIndex := rfind p dot in
  if sepIndex <? dotIndex
  then splitext_loop p dotIndex (sepIndex + 1)
         (Z.to_nat (dotIndex - (sepIndex + 1)))
  else (p, slice p 0 (Some 0)).

(** [os.path.join(a, b)] on a POSIX system. *)
Definition path_join (a b : str) : str :=
  if startswith b [slash] then b
  else if no_chars a || endswith a [slash] then a ++ b
  else a ++ [slash] ++ b.

(** ** [markdown_naive] (lines 108-121) *)

(** The loop [for t in tokens: text = text.replace(t, ...)]. *)
Fixpoint markdown_naive_loop (text : str) (tokens : list str)
    (bg_color : pyopt) : str :=
  match tokens with
  | [] => text
  | t :: rest =>
      markdown_naive_loop (str_replace text t (markdown_bgcolor t bg_color))
        rest bg_color
  end.

Definition markdown_naive (text : str) (tokens : list str) (bg_color : pyopt)
  : M str :=
  print [Str (lit "highlight tokens"); Tokens tokens] ;;
  let text := markdown_naive_loop text tokens bg_color in
  let text := str_replace text [dollar] [backslash; dollar] in
  ret text.

(** ** [save_uploaded_file] (lines 90-105) *)

(** What the function shows on the page. *)
Inductive notice : Type :=
  | st_success (body : str)
  | st_error (body : str).

(** An uploaded file: its name and its content. *)
Record uploaded : Type := {
  name : str;
  getbuffer : str
}.

Section Upload.

(** The files on disk, and the two lines [with open(file_path, "wb") as f:
    f.write(...)], which return or raise and leave the disk in some state. *)
Variable disk : Type.
Variable write_file : str -> str -> disk -> result unit * disk.

Definition save_uploaded_file (uploaded_file : uploaded) (upload_dir : str)
    (d : disk) : list notice * disk :=
  let file_extension := snd (splitext (name uploaded_file)) in
  if bool_decide (str_lower file_extension = lit ".pdf") then
    let file_path := path_join upload_dir (name uploaded_file) in
    match write_file file_path (getbuffer uploaded_file) d with
    | (Returned _, d') =>
        ([st_success (lit "File '" ++ name uploaded_file
                      ++ lit "' uploaded successfully!")], d')
    | (Raised e, d') => ([st_error (lit "Error uploading file: " ++ e)], d')
    end
  else ([st_error (lit "Only PDF files are allowed.")], d).

End Upload.

(** A name that is a stem with some character other than a dot, followed by
    [.pdf] in any letter case. *)
Definition pdf_name (p : str) : Prop :=
  exists stem ext,
    p = stem ++ ext /\ str_lower ext = lit ".pdf"
    /\ Exists (fun c => c <> dot) stem.

(** An upload whose extension is in capitals. *)
Definition report_upload : uploaded :=
  {| name := lit "report.PDF"; getbuffer := lit "%PDF-1.7" |}.

(** A disk on which every write raises. *)
Definition full_disk (path data : str) (d : unit) : result unit * unit :=
  (Raised (lit "[Errno 28] No space left on device"), d).

(** ** Pieces of [main] *)

(** [f"{i}"] for an index [i] of [enumerate]. *)
Definition str_of_nat (i : nat) : str :=
  lit (NilEmpty.string_of_uint (Nat.to_uint i)).

(** Lines 215-216: the options of the question box, numbered from 0. *)
Definition numbered_questions (questions : list str) : list str :=
  imap (fun i q => str_of_nat i ++ lit ". " ++ q)
    (lit "Ask your question" :: questions).

(** Lines 222 and 224: the documents offered for selection. *)
Definition pdf_docs (document_repo_file_path : str) (listdocs : list str)
  : list str :=
  List.filter (fun doc => endswith doc (lit ".pdf"))
    (map (path_join document_repo_file_path) listdocs).

(** Lines 246-261: from the option selected in the question box and the text
    typed into the input box to the query; [None] is the early [return]. *)
Definition chosen_query (selected typed : str) : option str :=
  let question := clean_question selected in
  let question := if contains question (lit "Ask") then typed else question in
  if no_chars question then None else Some (str_strip question).

(** Lines 311-313: the tokens of the answer, of the labels, and the set of
    the label tokens that the answer misses. *)
Definition tokens_miss (text_tokenizer : pyopt -> list str)
    (ground_truth : pyopt) : gset str :=
  let tokens_answer := text_tokenizer ground_truth in
  let tokens_labels :=
    if truthy ground_truth then text_tokenizer (Some (fmt ground_truth))
    else [] in
  list_to_set tokens_labels ∖ list_to_set tokens_answer.

(** A tokenizer to run lines 311-313 with: the words of
    [UtilsTextModel.text_tokenizer], without their offsets. *)
Definition words_of (x : pyopt) : list str :=
  map fst (UtilsTextModel.text_tokenizer (fmt x)).

(** ** [markdown2] over searches that keep a state

    [utils.utils_text] is a Python module: its three functions could read
    and change state of their own between calls (module globals, caches).
    Here a search takes the state it finds and returns the state it leaves,
    and [markdown2] is written once more over such searches, the state
    passed along explicitly next to the log. *)

Section HiddenState.

(** The state the searches keep. *)
Variable hidden : Type.

Definition world : Type := log * hidden.

Definition Searches : Type :=
  tier -> str -> list str -> hidden -> list span * hidden.

Definition print_in (args : list pyval) (v : world) : world :=
  (fst v ++ [Printed args], snd v).

(** A call of one search: logged, run on the state, its result returned. *)
Definition call_in (F : Searches) (t : tier) (text : str)
    (tokens : list str) (v : world) : list span * world :=
  let '(spans, s) := F t text tokens (snd v) in
  (spans, (fst v ++ [Called t text tokens], s)).

(** Lines 132-140. *)
Definition markdown2_spans_in (F : Searches) (text : str)
    (tokens : list str) (v : world) : list span * world :=
  let '(spans, v) :=
    if Z.of_nat (length tokens) <? 20 then
      let '(spans, v) := call_in F Ordered text tokens v in
      if no_spans spans then
        let '(spans, v) := call_in F Compact text tokens v in
        let v := print_in [Str (lit "spans_of_tokens_compact:"); Spans spans]
                   v in
        (spans, v)
      else (spans, v)
    else ([], v) in
  if no_spans spans then
    let '(spans, v) := call_in F AllOccurrences text tokens v in
    let v := print_in [Str (lit "spans_of_tokens_all:"); Spans spans] v in
    (spans, v)
  else (spans, v).

(** Lines 124-152. *)
Definition markdown2_in (F : Searches) (text : str) (tokens : list str)
    (fg_color bg_color : pyopt) (v : world) : str * world :=
  let v := print_in [Str (lit "highlight tokens:"); Tokens tokens] v in
  let '(spans, v) := markdown2_spans_in F text tokens v in
  (markdown2_output text spans fg_color bg_color, v).

(** Modelled from the spec: the purity of the three searches of
    [utils/utils_text.py], a file that is not among the sources (section 5:
    each [locate] call is a pure function of its two inputs, and the core
    holds no state between calls): what a search returns does not depend on
    the state it finds. *)
Definition pure_searches (F : Searches) : Prop :=
  forall t text tokens s1 s2,
    fst (F t text tokens s1) = fst (F t text tokens s2).


(** Searches without a state of their own. *)
Definition stateless (U : UtilsText) : Searches :=
  fun t text tokens s => (search U t text tokens, s).

End HiddenState.


(** Searches that answer as [U] does on their first call and find nothing
    afterwards. *)
Definition forgetful (U : UtilsText) : Searches nat :=
  fun t text tokens n =>
    (match n with
     | O => search U t text tokens
     | S _ => []
     end, S n).

(** ** The choice of the tier *)

Lemma markdown2_spans_run U text tokens w :
  exists evs,
    markdown2_spans U text tokens w = (located U text tokens, w ++ evs)
    /\ trace U text tokens
       = Printed [Str (lit "highlight tokens:"); Tokens tokens] :: evs.
Proof.
  unfold markdown2_spans, located, trace, call, print, emit, bind, ret, search.
  destruct (Z.of_nat (length tokens) <? 20);
    [destruct (spans_of_tokens_ordered U text tokens) as [|o os]; simpl;
     [destruct (spans_of_tokens_compact U text tokens) as [|c cs]; simpl|]|
     simpl];
    eexists; (split; [|reflexivity]);
    rewrite <- ?app_assoc; reflexivity.
Qed.

Lemma markdown2_run U text tokens fg_color bg_color w :
  markdown2 U text tokens fg_color bg_color w
  = (markdown2_output text (located U text tokens) fg_color bg_color,
     w ++ trace U text tokens).
Proof.
  unfold markdown2, print, emit, bind, ret.
  destruct (markdown2_spans_run U text tokens
              (w ++ [Printed [Str (lit "highlight tokens:"); Tokens tokens]]))
    as (evs & -> & ->).
  rewrite <- app_assoc. reflexivity.
Qed.

(** With twenty tokens or more the guard [len(tokens) < 20] is false: lines
    134-137 are not run, [spans] is still empty at line 138, and the one
    search made is [spans_of_tokens_all]. *)
Lemma large_token_set U text tokens :
  (20 <= length tokens)%nat ->
  located U text tokens = spans_of_tokens_all U text tokens
  /\ trace U text tokens
     = [Printed [Str (lit "highlight tokens:"); Tokens tokens];
        Called AllOccurrences text tokens;
        Printed [Str (lit "spans_of_tokens_all:");
                 Spans (spans_of_tokens_all U text tokens)]].
Proof.
  intros Hlen. unfold located, trace.
  destruct (Z.ltb_spec (Z.of_nat (length tokens)) 20) as [Hlt|_]; [lia|].
  split; reflexivity.
Qed.

(** C1, as amended: for every text and every collection of 20 tokens or more,
    [markdown2] skips tier 1 and tier 2 alike; the only search it invokes is
    tier 3 ([spans_of_tokens_all]), and the spans highlighted are the ones
    that search returns. *)
Theorem C1_large_token_set_goes_to_tier_3 U text tokens fg_color bg_color w :
  (20 <= length tokens)%nat ->
  markdown2 U text tokens fg_color bg_color w
  = (markdown2_output text (spans_of_tokens_all U text tokens)
       fg_color bg_color,
     w ++ [Printed [Str (lit "highlight tokens:"); Tokens tokens];
           Called AllOccurrences text tokens;
           Printed [Str (lit "spans_of_tokens_all:");
                    Spans (spans_of_tokens_all U text tokens)]]).
Proof.
  intros Hlen. rewrite markdown2_run.
  destruct (large_token_set U text tokens Hlen) as [-> ->]. reflexivity.
Qed.

Lemma C1_large_token_set_witness :
  (20 <= length twenty_tokens)%nat
  /\ markdown2 UtilsTextModel.utils UtilsTextModel.prospectus twenty_tokens
       None (Some (lit "red")) []
     = (markdown2_output UtilsTextModel.prospectus
          (spans_of_tokens_all UtilsTextModel.utils UtilsTextModel.prospectus
             twenty_tokens)
          None (Some (lit "red")),
        [] ++ [Printed [Str (lit "highlight tokens:"); Tokens twenty_tokens];
               Called AllOccurrences UtilsTextModel.prospectus twenty_tokens;
               Printed [Str (lit "spans_of_tokens_all:");
                        Spans (spans_of_tokens_all UtilsTextModel.utils
                                 UtilsTextModel.prospectus twenty_tokens)]]).
Proof.
  assert (Hlen : (20 <= length twenty_tokens)%nat) by (vm_compute; lia).
  split; [exact Hlen|].
  exact (C1_large_token_set_goes_to_tier_3 UtilsTextModel.utils
           UtilsTextModel.prospectus twenty_tokens None (Some (lit "red")) []
           Hlen).
Defined.

(** C1 as stated fails: on the sample prospectus and twenty tokens, tier 2
    would find the window [expense ratio], yet [markdown2] never invokes it;
    the only search in the log is tier 3, which marks the two words apart. *)
Lemma C1_tier_2_is_skipped_too :
  length twenty_tokens = 20%nat
  /\ UtilsTextModel.compact UtilsTextModel.prospectus twenty_tokens
     = [(29, 42)]
  /\ ~ In (Compact, UtilsTextModel.prospectus, twenty_tokens)
         (calls_made
            (snd (markdown2 UtilsTextModel.utils UtilsTextModel.prospectus
                    twenty_tokens None (Some (lit "red")) [])))
  /\ calls_made
       (snd (markdown2 UtilsTextModel.utils UtilsTextModel.prospectus
               twenty_tokens None (Some (lit "red")) []))
     = [(AllOccurrences, UtilsTextModel.prospectus, twenty_tokens)]
  /\ located UtilsTextModel.utils UtilsTextModel.prospectus twenty_tokens
     = [(29, 36); (37, 42)].
Proof.
  split; [reflexivity|]. split; [vm_compute; reflexivity|].
  assert (Hcalls :
    calls_made
      (snd (markdown2 UtilsTextModel.utils UtilsTextModel.prospectus
              twenty_tokens None (Some (lit "red")) []))
    = [(AllOccurrences, UtilsTextModel.prospectus, twenty_tokens)])
    by (vm_compute; reflexivity).
  split; [|split; [exact Hcalls | vm_compute; reflexivity]].
  rewrite Hcalls. intros [Heq | []]. discriminate Heq.
Qed.

(** C2: for every text and every collection of fewer than 20 tokens the
    three searches are tried in the fixed order ordered, compact, all; the
    first one that returns a non-empty list gives the spans that are
    highlighted, and no later search is invoked after it. *)
Theorem C2_first_successful_tier_wins U text tokens fg_color bg_color w :
  (length tokens < 20)%nat ->
  exists spans evs,
    markdown2 U text tokens fg_color bg_color w
    = (markdown2_output text spans fg_color bg_color, w ++ evs)
    /\ (spans_of_tokens_ordered U text tokens <> [] ->
        spans = spans_of_tokens_ordered U text tokens
        /\ calls_made evs = [(Ordered, text, tokens)])
    /\ (spans_of_tokens_ordered U text tokens = [] ->
        spans_of_tokens_compact U text tokens <> [] ->
        spans = spans_of_tokens_compact U text tokens
        /\ calls_made evs = [(Ordered, text, tokens); (Compact, text, tokens)])
    /\ (spans_of_tokens_ordered U text tokens = [] ->
        spans_of_tokens_compact U text tokens = [] ->
        spans = spans_of_tokens_all U text tokens
        /\ calls_made evs
           = [(Ordered, text, tokens); (Compact, text, tokens);
              (AllOccurrences, text, tokens)]).
Proof.
  intros Hlen. exists (located U text tokens), (trace U text tokens).
  split; [apply markdown2_run|].
  unfold located, trace.
  destruct (Z.ltb_spec (Z.of_nat (length tokens)) 20) as [_|Hge]; [|lia].
  destruct (spans_of_tokens_ordered U text tokens) as [|o os];
    destruct (spans_of_tokens_compact U text tokens) as [|c cs];
    simpl; repeat split; intros; first [reflexivity | congruence].
Qed.

Lemma C2_first_successful_tier_witness :
  (length [lit "load"; lit "expense"] < 20)%nat
  /\ exists spans evs,
       markdown2 UtilsTextModel.utils UtilsTextModel.prospectus
         [lit "load"; lit "expense"] None (Some (lit "red")) []
       = (markdown2_output UtilsTextModel.prospectus spans None
            (Some (lit "red")), [] ++ evs)
       /\ spans = [(29, 56)]
       /\ calls_made evs
          = [(Ordered, UtilsTextModel.prospectus,
              [lit "load"; lit "expense"]);
             (Compact, UtilsTextModel.prospectus,
              [lit "load"; lit "expense"])].
Proof.
  split; [simpl; lia|].
  destruct (C2_first_successful_tier_wins UtilsTextModel.utils
              UtilsTextModel.prospectus [lit "load"; lit "expense"]
              None (Some (lit "red")) [])
    as (spans & evs & Hrun & _ & Hcompact & _); [simpl; lia|].
  exists spans, evs. split; [exact Hrun|].
  destruct Hcompact as [-> ->];
    [vm_compute; reflexivity | vm_compute; discriminate |].
  split; [vm_compute; reflexivity | reflexivity].
Defined.

Lemma slice_from_0 (text : str) : slice text 0 None = text.
Proof.
  unfold slice, slice_bound. simpl.
  destruct (Z.ltb_spec (Z.of_nat (length text)) 0) as [Hneg|_]; [lia|].
  rewrite Z.sub_0_r, Nat2Z.id. simpl. apply firstn_all.
Qed.

Lemma markdown2_output_nil text fg_color bg_color :
  markdown2_output text [] fg_color bg_color = text.
Proof. unfold markdown2_output. simpl. apply slice_from_0. Qed.

(** C3, as amended: [markdown2] has no branch for an empty token collection:
    it is handled as any collection of fewer than 20 tokens, so tier 1 is
    always invoked on it.  When the three searches find nothing for the
    empty collection, all three are invoked in turn, the span list is empty
    and the text is returned unchanged. *)
Theorem C3_empty_token_set U text fg_color bg_color w :
  (exists rest,
     calls_made (trace U text []) = (Ordered, text, []) :: rest
     /\ snd (markdown2 U text [] fg_color bg_color w) = w ++ trace U text [])
  /\ (spans_of_tokens_ordered U text [] = [] ->
      spans_of_tokens_compact U text [] = [] ->
      spans_of_tokens_all U text [] = [] ->
      markdown2 U text [] fg_color bg_color w
      = (text,
         w ++ [Printed [Str (lit "highlight tokens:"); Tokens []];
               Called Ordered text [];
               Called Compact text [];
               Printed [Str (lit "spans_of_tokens_compact:"); Spans []];
               Called AllOccurrences text [];
               Printed [Str (lit "spans_of_tokens_all:"); Spans []]])).
Proof.
  rewrite markdown2_run. unfold located, trace. simpl. split.
  - eexists. split; reflexivity.
  - intros -> -> ->. simpl. rewrite markdown2_output_nil. reflexivity.
Qed.

Lemma C3_empty_token_set_witness :
  markdown2 UtilsTextModel.utils UtilsTextModel.prospectus [] None
    (Some (lit "red")) []
  = (UtilsTextModel.prospectus,
     [] ++ [Printed [Str (lit "highlight tokens:"); Tokens []];
            Called Ordered UtilsTextModel.prospectus [];
            Called Compact UtilsTextModel.prospectus [];
            Printed [Str (lit "spans_of_tokens_compact:"); Spans []];
            Called AllOccurrences UtilsTextModel.prospectus [];
            Printed [Str (lit "spans_of_tokens_all:"); Spans []]]).
Proof.
  apply (C3_empty_token_set UtilsTextModel.utils UtilsTextModel.prospectus
           None (Some (lit "red")) []); reflexivity.
Defined.

(** C3 as stated fails: with no token at all, [markdown2] on the sample
    prospectus still invokes the searches, all three of them. *)
Lemma C3_empty_token_set_invokes_tiers :
  calls_made
    (snd (markdown2 UtilsTextModel.utils UtilsTextModel.prospectus []
            None (Some (lit "red")) []))
  = [(Ordered, UtilsTextModel.prospectus, []);
     (Compact, UtilsTextModel.prospectus, []);
     (AllOccurrences, UtilsTextModel.prospectus, [])]
  /\ calls_made
       (snd (markdown2 UtilsTextModel.utils UtilsTextModel.prospectus []
               None (Some (lit "red")) []))
     <> [].
Proof.
  assert (Hcalls :
    calls_made
      (snd (markdown2 UtilsTextModel.utils UtilsTextModel.prospectus []
              None (Some (lit "red")) []))
    = [(Ordered, UtilsTextModel.prospectus, []);
       (Compact, UtilsTextModel.prospectus, []);
       (AllOccurrences, UtilsTextModel.prospectus, [])])
    by (vm_compute; reflexivity).
  split; [exact Hcalls|]. rewrite Hcalls. discriminate.
Qed.

(** ** The two passes of [main] *)

Lemma calls_of_trace U text tokens :
  calls_made (trace U text tokens) <> []
  /\ Forall (fun c => snd (fst c) = text /\ snd c = tokens)
       (calls_made (trace U text tokens)).
Proof.
  unfold trace.
  destruct (Z.of_nat (length tokens) <? 20);
    [destruct (no_spans (spans_of_tokens_ordered U text tokens));
     [destruct (no_spans (spans_of_tokens_compact U text tokens))|]|];
    simpl; (split; [discriminate | repeat constructor]).
Qed.

(** C4, as amended: the two passes are chained.  The first call works on the
    escaped document text; the second call is given the output of the first
    one, markers included: every search of the second call is made on that
    marked text, and its substitution is applied to that same text. *)
Theorem C4_second_pass_works_on_first_output
    U all_text tokens_answer tokens_miss w :
  let first :=
    fst (markdown2 U (markdown_escape all_text) tokens_answer None
           (Some (lit "#90EE90")) w) in
  let w1 :=
    snd (markdown2 U (markdown_escape all_text) tokens_answer None
           (Some (lit "#90EE90")) w) in
  exists evs second,
    highlight_evidence U all_text tokens_answer tokens_miss w
    = (second,
       w1 ++ evs
       ++ [Printed [Str (lit "done")]; Streamlit (st_markdown second true)])
    /\ markdown2 U first tokens_miss None (Some (lit "red")) w1
       = (second, w1 ++ evs)
    /\ second
       = markdown2_output first (located U first tokens_miss) None
           (Some (lit "red"))
    /\ calls_made evs <> []
    /\ Forall (fun c => snd (fst c) = first /\ snd c = tokens_miss)
         (calls_made evs).
Proof.
  intros first w1. subst first w1. rewrite markdown2_run. cbn [fst snd].
  set (first := markdown2_output (markdown_escape all_text)
                  (located U (markdown_escape all_text) tokens_answer) None
                  (Some (lit "#90EE90"))).
  exists (trace U first tokens_miss),
    (markdown2_output first (located U first tokens_miss) None
       (Some (lit "red"))).
  split.
  { unfold highlight_evidence, bind, print, emit, ret.
    rewrite markdown2_run. fold first. rewrite markdown2_run.
    rewrite <- !app_assoc. reflexivity. }
  split; [apply markdown2_run|]. split; [reflexivity|].
  apply calls_of_trace.
Qed.

(** C4 as stated fails: on the sample prospectus with answer tokens [expense]
    and [ratio] and no miss token, the searches of the second call are made
    on the text the first call has already marked, which is not the
    original text. *)
Lemma C4_second_pass_reads_marked_text :
  calls_made
    (snd (highlight_evidence UtilsTextModel.utils UtilsTextModel.prospectus
            [lit "expense"; lit "ratio"] [] []))
  = [(Ordered, UtilsTextModel.prospectus, [lit "expense"; lit "ratio"]);
     (Ordered, marked_prospectus, []);
     (Compact, marked_prospectus, []);
     (AllOccurrences, marked_prospectus, [])]
  /\ marked_prospectus <> UtilsTextModel.prospectus
  /\ ~ (forall t text,
          In (t, text, [])
            (calls_made
               (snd (highlight_evidence UtilsTextModel.utils
                       UtilsTextModel.prospectus
                       [lit "expense"; lit "ratio"] [] []))) ->
          text = UtilsTextModel.prospectus).
Proof.
  assert (Hcalls :
    calls_made
      (snd (highlight_evidence UtilsTextModel.utils UtilsTextModel.prospectus
              [lit "expense"; lit "ratio"] [] []))
    = [(Ordered, UtilsTextModel.prospectus, [lit "expense"; lit "ratio"]);
       (Ordered, marked_prospectus, []);
       (Compact, marked_prospectus, []);
       (AllOccurrences, marked_prospectus, [])])
    by (vm_compute; reflexivity).
  assert (Hne : marked_prospectus <> UtilsTextModel.prospectus)
    by (vm_compute; discriminate).
  split; [exact Hcalls|]. split; [exact Hne|].
  rewrite Hcalls. intros Hall. apply Hne.
  apply (Hall Ordered). right. left. reflexivity.
Qed.

(** ** The substitution loop *)

Lemma markdown2_loop_wrap text fg_color bg_color spans :
  forall output k,
    (let '(output', k') :=
       markdown2_loop text fg_color bg_color spans output k in
     output' ++ slice text k' None)
    = output ++ wrap_spans (marker fg_color bg_color) text k spans.
Proof.
  induction spans as [|[i j] rest IH]; intros output k; simpl.
  - reflexivity.
  - rewrite IH. unfold marker.
    destruct (truthy bg_color); rewrite <- !app_assoc; reflexivity.
Qed.

Lemma markdown2_output_wrap text spans fg_color bg_color :
  markdown2_output text spans fg_color bg_color
  = wrap_spans (marker fg_color bg_color) text 0 spans.
Proof.
  unfold markdown2_output.
  apply (markdown2_loop_wrap text fg_color bg_color spans [] 0).
Qed.

Lemma slice_bound_nonneg len i :
  0 <= i -> 0 <= len -> slice_bound len i = Z.min i len.
Proof.
  intros Hi Hlen.
  assert (Hpos : (i <? 0) = false) by (apply Z.ltb_ge; lia).
  unfold slice_bound. rewrite Hpos. cbv zeta. rewrite Hpos.
  destruct (Z.ltb_spec len i); lia.
Qed.

Lemma slice_substring (text : str) a b :
  0 <= a -> a <= b -> slice text a (Some b) = substring text a b.
Proof.
  intros Ha Hab. unfold slice, substring. cbv zeta.
  rewrite !slice_bound_nonneg by lia.
  destruct (Z.le_gt_cases a (Z.of_nat (length text))) as [Hin|Hout].
  - rewrite (Z.min_l a) by lia.
    destruct (Z.le_gt_cases b (Z.of_nat (length text))) as [Hb|Hb].
    + rewrite (Z.min_l b) by lia. f_equal. lia.
    + rewrite (Z.min_r b) by lia.
      rewrite !firstn_all2; [reflexivity| |]; rewrite length_skipn; lia.
  - rewrite !Z.min_r by lia.
    rewrite !(skipn_all2 text) by lia. rewrite !firstn_nil. reflexivity.
Qed.

Lemma slice_tail (text : str) k :
  0 <= k -> slice text k None = drop (Z.to_nat k) text.
Proof.
  intros Hk. unfold slice. cbv zeta. rewrite slice_bound_nonneg by lia.
  destruct (Z.le_gt_cases k (Z.of_nat (length text))) as [Hin|Hout].
  - rewrite Z.min_l by lia. apply firstn_all2. rewrite length_skipn. lia.
  - rewrite Z.min_r by lia. rewrite Z.sub_diag, Nat2Z.id. simpl.
    rewrite !skipn_all2 by lia. reflexivity.
Qed.

Lemma substring_drop (text : str) a b :
  0 <= a -> a <= b ->
  substring text a b ++ drop (Z.to_nat b) text = drop (Z.to_nat a) text.
Proof.
  intros Ha Hab. unfold substring.
  replace (Z.to_nat b) with ((Z.to_nat b - Z.to_nat a) + Z.to_nat a)%nat
    at 2 by lia.
  rewrite <- skipn_skipn. apply firstn_skipn.
Qed.

Lemma wrap_spans_regions mark text spans :
  forall k, 0 <= k -> chained k spans ->
    wrap_spans mark text k spans = with_markers mark (regions text k spans).
Proof.
  unfold with_markers.
  induction spans as [|[i j] rest IH]; intros k Hk Hch; simpl.
  - rewrite app_nil_r. apply slice_tail, Hk.
  - destruct Hch as (Hki & Hij & Hrest).
    rewrite !slice_substring by lia. rewrite IH by (lia || assumption).
    reflexivity.
Qed.

Lemma without_markers_regions text spans :
  forall k, 0 <= k -> chained k spans ->
    without_markers (regions text k spans) = drop (Z.to_nat k) text.
Proof.
  unfold without_markers.
  induction spans as [|[i j] rest IH]; intros k Hk Hch; simpl.
  - apply app_nil_r.
  - destruct Hch as (Hki & Hij & Hrest).
    rewrite IH by (lia || assumption).
    rewrite substring_drop by lia. apply substring_drop; lia.
Qed.

(** Sorted by start, pairwise apart and non-empty: then each span ends
    before the next starts. *)
Lemma sorted_apart_chained spans :
  forall k,
    Forall span_ok spans -> Sorted by_start spans ->
    ForallOrdPairs apart spans ->
    (forall s, head spans = Some s -> k <= fst s) ->
    chained k spans.
Proof.
  induction spans as [|[i j] rest IH]; intros k Hok Hsorted Hapart Hk; simpl.
  - exact I.
  - inversion Hok as [|? ? Hij Hok']; subst.
    inversion Hsorted as [|? ? Hsorted' Hhd]; subst.
    inversion Hapart as [|? ? Hall Hapart']; subst.
    unfold span_ok in Hij; simpl in Hij.
    split; [apply (Hk (i, j)); reflexivity|]. split; [lia|].
    apply IH; try assumption.
    intros [i' j'] Hhead. destruct rest as [|s' rest']; [discriminate|].
    simpl in Hhead. injection Hhead as ->.
    inversion Hhd as [|? ? Hstart]; subst.
    inversion Hall as [|? ? Hap _]; subst.
    inversion Hok' as [|? ? Hok1 _]; subst.
    unfold by_start, apart, span_ok in *; simpl in *. lia.
Qed.

(** C6: for every text and every list of spans that is sorted ascending by
    start offset and pairwise non-overlapping, the output of the
    highlighting loop is the text cut at the bounds of the spans, the regions
    outside the spans copied as they are and in order, each span's substring
    wrapped in the style marker; with the markers removed, what is left is
    the original text. *)
Theorem C6_markers_wrap_spans_only text spans fg_color bg_color :
  Forall span_ok spans ->
  Sorted by_start spans ->
  ForallOrdPairs apart spans ->
  markdown2_output text spans fg_color bg_color
  = with_markers (marker fg_color bg_color) (regions text 0 spans)
  /\ without_markers (regions text 0 spans) = text.
Proof.
  intros Hok Hsorted Hapart.
  assert (Hch : chained 0 spans).
  { apply sorted_apart_chained; try assumption.
    intros s Hhead. destruct spans as [|s' rest]; [discriminate|].
    simpl in Hhead. injection Hhead as ->.
    inversion Hok as [|? ? Hs _]; subst. unfold span_ok in Hs. lia. }
  split.
  - rewrite markdown2_output_wrap. apply wrap_spans_regions; [lia|exact Hch].
  - rewrite without_markers_regions by (lia || exact Hch). reflexivity.
Qed.

Lemma C6_markers_wrap_spans_witness :
  Forall span_ok [(29, 36); (37, 42)]
  /\ Sorted by_start [(29, 36); (37, 42)]
  /\ ForallOrdPairs apart [(29, 36); (37, 42)]
  /\ markdown2_output UtilsTextModel.prospectus [(29, 36); (37, 42)] None
       (Some (lit "red"))
     = with_markers (marker None (Some (lit "red")))
         (regions UtilsTextModel.prospectus 0 [(29, 36); (37, 42)])
  /\ without_markers
       (regions UtilsTextModel.prospectus 0 [(29, 36); (37, 42)])
     = UtilsTextModel.prospectus.
Proof.
  assert (Hok : Forall span_ok [(29, 36); (37, 42)]).
  { constructor; [unfold span_ok; simpl; lia|].
    constructor; [unfold span_ok; simpl; lia|]. constructor. }
  assert (Hsorted : Sorted by_start [(29, 36); (37, 42)]).
  { constructor; [constructor; constructor|].
    constructor. unfold by_start; simpl; lia. }
  assert (Hapart : ForallOrdPairs apart [(29, 36); (37, 42)]).
  { constructor; [|constructor; constructor].
    constructor; [|constructor]. left; simpl; lia. }
  split; [exact Hok|]. split; [exact Hsorted|]. split; [exact Hapart|].
  exact (C6_markers_wrap_spans_only UtilsTextModel.prospectus
           [(29, 36); (37, 42)] None (Some (lit "red")) Hok Hsorted Hapart).
Defined.

(** C7: [markdown2] renders in one of exactly two ways, chosen at each call
    by its argument [bg_color]: when a background colour is given (a
    non-empty string), every located span is wrapped in the HTML span marker
    with that background colour; otherwise every located span is wrapped in
    the marker [:color[text]] of the foreground colour. *)
Theorem C7_two_rendering_modes U text tokens fg_color bg_color w :
  fst (markdown2 U text tokens fg_color bg_color w)
  = wrap_spans
      (if truthy bg_color
       then fun s =>
              lit "<span style=" ++ [dquote] ++ lit "background-color:"
              ++ fmt bg_color ++ lit ";" ++ [dquote] ++ lit ">" ++ s
              ++ lit "</span>"
       else fun s => lit ":" ++ fmt fg_color ++ lit "[" ++ s ++ lit "]")
      text 0 (located U text tokens).
Proof.
  rewrite markdown2_run. cbn [fst]. rewrite markdown2_output_wrap.
  f_equal. unfold marker, markdown_bgcolor, markdown_fgcolor.
  destruct (truthy bg_color); reflexivity.
Qed.

(** ** No hidden state *)

(** Over searches without a state, [markdown2_in] is [markdown2]. *)
Lemma markdown2_in_stateless {hidden} U text tokens fg_color bg_color w
    (s : hidden) :
  markdown2_in hidden (stateless hidden U) text tokens fg_color bg_color (w, s)
  = (fst (markdown2 U text tokens fg_color bg_color w),
     (snd (markdown2 U text tokens fg_color bg_color w), s)).
Proof.
  rewrite markdown2_run. cbn [fst snd].
  unfold markdown2_in, markdown2_spans_in, call_in, print_in, stateless,
    located, trace. cbn [fst snd search].
  destruct (Z.of_nat (length tokens) <? 20);
    [destruct (spans_of_tokens_ordered U text tokens) as [|o os];
     [destruct (spans_of_tokens_compact U text tokens) as [|c cs]|]|];
    cbn [no_spans fst snd]; rewrite <- ?app_assoc; reflexivity.
Qed.






(** The hypothesis on the searches is needed: with searches that find
    nothing after their first call, a second run of [markdown2] on the same
    arguments returns another output than the first. *)
Lemma forgetful_searches_are_not_pure :
  ~ pure_searches nat (forgetful UtilsTextModel.utils)
  /\ fst (markdown2_in nat (forgetful UtilsTextModel.utils)
            UtilsTextModel.prospectus [lit "expense"; lit "ratio"] None
            (Some (lit "red")) ([], 0%nat))
     <> fst (markdown2_in nat (forgetful UtilsTextModel.utils)
               UtilsTextModel.prospectus [lit "expense"; lit "ratio"] None
               (Some (lit "red"))
               (snd (markdown2_in nat (forgetful UtilsTextModel.utils)
                       UtilsTextModel.prospectus
                       [lit "expense"; lit "ratio"] None
                       (Some (lit "red")) ([], 0%nat)))).
Proof.
  split.
  - intros Hpure.
    specialize (Hpure Ordered UtilsTextModel.prospectus
                  [lit "expense"; lit "ratio"] 0%nat 1%nat).
    vm_compute in Hpure. discriminate Hpure.
  - vm_compute. discriminate.
Qed.

(** ** [markdown_escape] *)

Lemma markdown_escape_keeps_no_markup_char text :
  Forall (fun c => markup_char c = false) (markdown_escape text).
Proof.
  induction text as [|c rest IH]; simpl; [constructor|].
  destruct (markup_char c) eqn:Hc; simpl.
  - repeat constructor. exact IH.
  - constructor; assumption.
Qed.

Lemma markdown_escape_plain text :
  Forall (fun c => markup_char c = false) text ->
  markdown_escape text = text /\ backslash_escaped text = text.
Proof.
  induction 1 as [|c rest Hc _ [IH1 IH2]]; simpl; [split; reflexivity|].
  rewrite Hc, IH1, IH2. split; reflexivity.
Qed.

(** C5, at the failing input [$5]: the claim asks for a backslash followed by
    the dollar sign; [markdown_escape] returns a backslash followed by the
    character U+0001, and the dollar sign is gone. *)
Theorem C5_markdown_escape_loses_the_character :
  markdown_escape (lit "$5") = [backslash; chr 1; chr 53]
  /\ backslash_escaped (lit "$5") = lit "\$5"
  /\ markdown_escape (lit "$5") <> backslash_escaped (lit "$5")
  /\ ~ In (chr 36) (markdown_escape (lit "$5")).
Proof.
  split; [reflexivity|]. split; [reflexivity|].
  split; [vm_compute; discriminate|].
  vm_compute. intros [H|[H|[H|[]]]]; discriminate H.
Qed.

(** ** [clean_question] *)

Lemma lstrip_class_fixed p s :
  (forall c rest, s = c :: rest -> p c = false) -> lstrip_class p s = s.
Proof.
  intros Hhead. destruct s as [|c rest]; simpl; [reflexivity|].
  rewrite (Hhead c rest eq_refl). reflexivity.
Qed.

Lemma lstrip_class_head p s c rest :
  lstrip_class p s = c :: rest -> p c = false.
Proof.
  induction s as [|d s IH]; simpl; [discriminate|].
  destruct (p d) eqn:Hd; [exact IH|].
  intros Heq. injection Heq as -> _. exact Hd.
Qed.

Lemma lstrip_class_run p s :
  exists run, s = run ++ lstrip_class p s /\ forallb p run = true.
Proof.
  induction s as [|d s (run & Hrun & Hall)]; simpl.
  - exists []. split; reflexivity.
  - destruct (p d) eqn:Hd.
    + exists (d :: run). simpl. rewrite Hd, Hall, <- Hrun. split; reflexivity.
    + exists []. split; reflexivity.
Qed.

(** C9: [clean_question] is idempotent, because what it returns never begins
    with a digit, a dot or white space: it removes exactly the longest
    leading run of such characters. *)
Theorem C9_clean_question_idempotent s :
  clean_question (clean_question s) = clean_question s
  /\ (forall c rest, clean_question s = c :: rest -> heading_char c = false)
  /\ exists run,
       s = run ++ clean_question s /\ forallb heading_char run = true.
Proof.
  unfold clean_question. split; [|split].
  - apply lstrip_class_fixed. intros c rest. apply lstrip_class_head.
  - intros c rest. apply lstrip_class_head.
  - apply lstrip_class_run.
Qed.

(** ** Start-up *)

(** C10: when the module is loaded, the check raises exactly when
    [BUCKET_NAME] is not a key of the environment, and it does so before
    anything is put on the page; when the key is there the check does
    nothing, and start-up goes on with the page set-up and [main]. *)
Theorem C10_bucket_name_check
    (main : E unit) (environ : gmap string string) (w : log) :
  ((exists message, fst (bucket_check environ w) = Raised message)
   <-> "BUCKET_NAME"%string ∉ dom environ)
  /\ bucket_check environ w
     = (if decide ("BUCKET_NAME"%string ∈ dom environ)
        then (Returned tt, w) else (Raised bucket_message, w))
  /\ module_body main environ w
     = (if decide ("BUCKET_NAME"%string ∈ dom environ)
        then main (w ++ page_setup) else (Raised bucket_message, w)).
Proof.
  unfold module_body, then_, bucket_check, raise, lift, ret, emit, page_setup.
  destruct (decide ("BUCKET_NAME"%string ∈ dom environ)) as [Hin|Hout].
  - destruct (decide (environ !! "BUCKET_NAME"%string = None)) as [Hnone|_].
    + apply elem_of_dom in Hin. rewrite Hnone in Hin.
      destruct Hin as [? Hin]. discriminate Hin.
    + simpl. split; [|split].
      * split; [intros [? Heq]; discriminate Heq | intros Hno; contradiction].
      * reflexivity.
      * rewrite <- !app_assoc. reflexivity.
  - destruct (decide (environ !! "BUCKET_NAME"%string = None)) as [_|Hsome].
    + simpl. split; [|split]; try reflexivity.
      split; [intros _; exact Hout | intros _; eexists; reflexivity].
    + exfalso. apply Hout, elem_of_dom.
      destruct (environ !! "BUCKET_NAME"%string) eqn:Heq; [eauto|].
      contradiction.
Qed.

(** * Further properties of [app.py] *)

(** ** [markdown_escape] *)

(** X1: escaping twice is escaping once: the two characters written for a
    markup character are not markup characters themselves. *)
Theorem X1_markdown_escape_idempotent text :
  markdown_escape (markdown_escape text) = markdown_escape text.
Proof.
  apply markdown_escape_plain, markdown_escape_keeps_no_markup_char.
Qed.

(** X2: escaping works character by character: the escape of a
    concatenation is the concatenation of the escapes. *)
Theorem X2_markdown_escape_app text1 text2 :
  markdown_escape (text1 ++ text2)
  = markdown_escape text1 ++ markdown_escape text2.
Proof.
  induction text1 as [|c rest IH]; simpl; [reflexivity|].
  rewrite IH, <- app_assoc. reflexivity.
Qed.

(** X3: the output is longer than the input by one character for each
    markup character of the input. *)
Theorem X3_markdown_escape_length text :
  length (markdown_escape text)
  = (length text + length (List.filter markup_char text))%nat.
Proof.
  induction text as [|c rest IH]; simpl; [reflexivity|].
  rewrite length_app, IH. destruct (markup_char c); simpl; lia.
Qed.

(** X5: the output does not tell the six markup characters apart: a text and
    the same text with every markup character turned into a dollar sign
    have the same escape. *)
Theorem X5_markdown_escape_merges_markup_chars text :
  markdown_escape text
  = markdown_escape (map (fun c => if markup_char c then dollar else c) text).
Proof.
  induction text as [|c rest IH]; simpl; [reflexivity|].
  rewrite <- IH. destruct (markup_char c) eqn:Hc.
  - reflexivity.
  - rewrite Hc. reflexivity.
Qed.

(** ** The style markers *)

(** X22: in either mode the marker determines the text it wraps. *)
Theorem X22_marker_injective fg_color bg_color s1 s2 :
  marker fg_color bg_color s1 = marker fg_color bg_color s2 -> s1 = s2.
Proof.
  unfold marker, markdown_bgcolor, markdown_fgcolor.
  destruct (truthy bg_color); intros Heq;
    repeat (apply app_inv_head in Heq); apply app_inv_tail in Heq; exact Heq.
Qed.

Lemma X22_marker_injective_witness :
  marker None (Some (lit "red")) (lit "fund")
  = marker None (Some (lit "red")) (lit "fund")
  /\ lit "fund" = lit "fund".
Proof.
  split; [reflexivity|].
  exact (X22_marker_injective None (Some (lit "red")) (lit "fund")
           (lit "fund") eq_refl).
Defined.

(** ** [clean_question] and the question box *)

Lemma lstrip_class_run_app p run s :
  forallb p run = true -> lstrip_class p (run ++ s) = lstrip_class p s.
Proof.
  induction run as [|c run IH]; simpl; [reflexivity|].
  destruct (p c); [exact IH | discriminate].
Qed.

Lemma lstrip_class_nil p s :
  lstrip_class p s = [] <-> forallb p s = true.
Proof.
  induction s as [|c s IH]; simpl; [tauto|].
  destruct (p c); simpl; [exact IH|]. split; discriminate.
Qed.

Lemma uint_digits d :
  forallb is_digit (lit (NilEmpty.string_of_uint d)) = true.
Proof. induction d; simpl; try reflexivity; exact IHd. Qed.

Lemma str_of_nat_heading i : forallb heading_char (str_of_nat i) = true.
Proof.
  unfold str_of_nat. generalize (uint_digits (Nat.to_uint i)).
  generalize (lit (NilEmpty.string_of_uint (Nat.to_uint i))).
  intros s. induction s as [|c s IH]; simpl; [reflexivity|].
  unfold heading_char. destruct (is_digit c); simpl; [exact IH|discriminate].
Qed.

Lemma clean_question_numbered i q :
  clean_question (str_of_nat i ++ lit ". " ++ q) = clean_question q.
Proof.
  unfold clean_question.
  rewrite lstrip_class_run_app by apply str_of_nat_heading.
  apply (lstrip_class_run_app heading_char (lit ". ")). reflexivity.
Qed.

(** X6: [clean_question] removes the number that line 216 puts before a
    question, and with it whatever digits, dots and white space the question
    itself begins with. *)
Theorem X6_clean_question_removes_number i q :
  clean_question (str_of_nat i ++ lit ". " ++ q) = clean_question q.
Proof. apply clean_question_numbered. Qed.

Lemma map_imap_ext {A B C} (g : B -> C) (f : nat -> A -> B) (h : A -> C) l :
  (forall i x, g (f i x) = h x) -> map g (imap f l) = map h l.
Proof.
  revert f. induction l as [|x l IH]; intros f Hf; simpl; [reflexivity|].
  rewrite Hf. f_equal. apply IH. intros i y. apply Hf.
Qed.

(** X7: for questions that do not begin with a digit, a dot or white space,
    numbering the options and cleaning them again gives back the first
    option and the questions as they were. *)
Theorem X7_numbered_questions_round_trip questions :
  Forall (fun q => forall c rest, q = c :: rest -> heading_char c = false)
    questions ->
  map clean_question (numbered_questions questions)
  = lit "Ask your question" :: questions.
Proof.
  intros Hq. unfold numbered_questions.
  rewrite (map_imap_ext clean_question _ clean_question)
    by (intros i q; apply clean_question_numbered).
  simpl. f_equal. induction Hq as [|q qs Hhead _ IH]; simpl; [reflexivity|].
  rewrite IH. f_equal. apply lstrip_class_fixed, Hhead.
Qed.

Lemma X7_numbered_questions_witness :
  Forall (fun q => forall c rest, q = c :: rest -> heading_char c = false)
    [lit "What is the expense ratio?"]
  /\ map clean_question
       (numbered_questions [lit "What is the expense ratio?"])
     = lit "Ask your question" :: [lit "What is the expense ratio?"].
Proof.
  assert (Hq : Forall (fun q => forall c rest, q = c :: rest ->
                          heading_char c = false)
                 [lit "What is the expense ratio?"]).
  { constructor; [|constructor].
    intros c rest Heq. injection Heq as <- _. reflexivity. }
  split; [exact Hq|].
  exact (X7_numbered_questions_round_trip
           [lit "What is the expense ratio?"] Hq).
Defined.

(** X8: [clean_question] returns the empty string exactly for the strings
    made of digits, dots and white space only (the empty string among
    them); these are the selections on which [main] returns early. *)
Theorem X8_clean_question_empty s :
  clean_question s = [] <-> forallb heading_char s = true.
Proof. apply lstrip_class_nil. Qed.

Lemma contains_lstrip_class p s c sub :
  p c = false -> contains s (c :: sub) = true ->
  contains (lstrip_class p s) (c :: sub) = true.
Proof.
  intros Hc. induction s as [|x s IH]; [intros H; exact H|].
  intros Hin. cbn [lstrip_class].
  destruct (p x) eqn:Hx; [|exact Hin].
  apply IH. cbn [contains] in Hin.
  apply orb_true_iff in Hin as [Hstart|Hrest]; [|exact Hrest].
  cbn [startswith] in Hstart. apply andb_true_iff in Hstart as [Heq _].
  apply bool_decide_eq_true in Heq. subst x. congruence.
Qed.

(** X10: a numbered question that contains the word [Ask] anywhere cannot be
    asked from the list: the test of line 250 takes it for the first option,
    and the query is made from what is typed into the input box. *)
Theorem X10_question_with_Ask_is_replaced i q typed :
  contains q (lit "Ask") = true ->
  chosen_query (str_of_nat i ++ lit ". " ++ q) typed
  = if no_chars typed then None else Some (str_strip typed).
Proof.
  intros Hask. unfold chosen_query. rewrite clean_question_numbered.
  unfold clean_question.
  assert (Hkept : contains (lstrip_class heading_char q) (lit "Ask") = true)
    by exact (contains_lstrip_class heading_char q "A"%char (lit "sk")
                eq_refl Hask).
  rewrite Hkept. reflexivity.
Qed.

Lemma X10_question_with_Ask_witness :
  contains (lit "What is the Ask price?") (lit "Ask") = true
  /\ chosen_query (str_of_nat 3 ++ lit ". " ++ lit "What is the Ask price?")
       (lit "fees")
     = if no_chars (lit "fees") then None else Some (str_strip (lit "fees")).
Proof.
  split; [reflexivity|].
  exact (X10_question_with_Ask_is_replaced 3 (lit "What is the Ask price?")
           (lit "fees") eq_refl).
Defined.

(** X9: the test for an empty question (line 256) comes before [strip]
    (line 261): when the first option is selected and only white space is
    typed, [main] does not return early and goes on with an empty query. *)
Theorem X9_blank_input_gives_empty_query typed :
  typed <> [] -> forallb is_space typed = true ->
  chosen_query (lit "0. Ask your question") typed = Some [].
Proof.
  intros Hne Hblank. unfold chosen_query.
  change (contains (clean_question (lit "0. Ask your question")) (lit "Ask"))
    with true.
  cbv iota. destruct typed as [|c typed]; [contradiction|].
  cbn [no_chars]. unfold str_strip.
  rewrite (proj2 (lstrip_class_nil is_space (c :: typed)) Hblank).
  reflexivity.
Qed.

Lemma X9_blank_input_witness :
  lit "  " <> [] /\ forallb is_space (lit "  ") = true
  /\ chosen_query (lit "0. Ask your question") (lit "  ") = Some [].
Proof.
  assert (Hne : lit "  " <> []) by discriminate.
  split; [exact Hne|]. split; [reflexivity|].
  exact (X9_blank_input_gives_empty_query (lit "  ") Hne eq_refl).
Defined.

Lemma lstrip_class_suffix p s : exists run, s = run ++ lstrip_class p s.
Proof.
  destruct (lstrip_class_run p s) as (run & Hrun & _). exists run. exact Hrun.
Qed.

Lemma str_strip_ends s c rest :
  (str_strip s = c :: rest -> is_space c = false)
  /\ (str_strip s = rest ++ [c] -> is_space c = false).
Proof.
  unfold str_strip.
  set (inner := lstrip_class is_space s).
  set (outer := lstrip_class is_space (rev inner)).
  split; intros Heq.
  - destruct (lstrip_class_suffix is_space (rev inner)) as (run & Hrun).
    fold outer in Hrun.
    assert (Hinner : inner = rev outer ++ rev run).
    { rewrite <- (rev_involutive inner), Hrun, rev_app_distr. reflexivity. }
    rewrite Heq in Hinner. simpl in Hinner.
    apply (lstrip_class_head is_space s c (rest ++ rev run)). exact Hinner.
  - assert (Houter : outer = c :: rev rest).
    { rewrite <- (rev_involutive outer), Heq, rev_app_distr. reflexivity. }
    apply (lstrip_class_head is_space (rev inner) c (rev rest)). exact Houter.
Qed.

(** X11: a query that [main] goes on with never begins or ends with white
    space. *)
Theorem X11_query_is_stripped selected typed query :
  chosen_query selected typed = Some query ->
  (forall c rest, query = c :: rest -> is_space c = false)
  /\ (forall c rest, query = rest ++ [c] -> is_space c = false).
Proof.
  unfold chosen_query.
  destruct (no_chars _); [discriminate|]. intros Heq. injection Heq as <-.
  split; intros c rest Hq.
  - exact (proj1 (str_strip_ends _ c rest) Hq).
  - exact (proj2 (str_strip_ends _ c rest) Hq).
Qed.

Lemma X11_query_is_stripped_witness :
  chosen_query (lit "1.  What is X? ") [] = Some (lit "What is X?")
  /\ (forall c rest, lit "What is X?" = c :: rest -> is_space c = false)
  /\ (forall c rest, lit "What is X?" = rest ++ [c] -> is_space c = false).
Proof.
  split; [reflexivity|].
  exact (X11_query_is_stripped (lit "1.  What is X? ") []
           (lit "What is X?") eq_refl).
Defined.

(** ** [markdown_naive] *)

Lemma str_replace_char s c new :
  str_replace s [c] new
  = flat_map (fun x => if decide (x = c) then new else [x]) s.
Proof.
  unfold str_replace.
  induction s as [|x s IH]; [reflexivity|].
  cbn [replace_from startswith flat_map length]. rewrite andb_true_r.
  destruct (decide (x = c)) as [->|Hne].
  - rewrite bool_decide_eq_true_2 by reflexivity. simpl. rewrite IH.
    reflexivity.
  - rewrite bool_decide_eq_false_2 by exact Hne. simpl. rewrite IH.
    reflexivity.
Qed.

Lemma escaped_dollars_preceded body :
  forall before after,
    flat_map (fun x => if decide (x = dollar) then [backslash; dollar]
                       else [x]) body
    = before ++ dollar :: after ->
    exists before', before = before' ++ [backslash].
Proof.
  induction body as [|x body IH]; intros before after Heq; simpl in Heq.
  - destruct before; discriminate Heq.
  - destruct (decide (x = dollar)) as [->|Hne]; simpl in Heq.
    + destruct before as [|b1 [|b2 before]]; simpl in Heq.
      * discriminate Heq.
      * injection Heq as <- _. exists []. reflexivity.
      * injection Heq as <- <- Heq.
        destruct (IH before after Heq) as (before' & ->).
        exists (backslash :: dollar :: before'). reflexivity.
    + destruct before as [|b1 before]; simpl in Heq.
      * injection Heq as -> _. contradiction.
      * injection Heq as <- Heq.
        destruct (IH before after Heq) as (before' & ->).
        exists (x :: before'). reflexivity.
Qed.

(** X12: whatever the tokens and the colour, every dollar sign in the text
    returned by [markdown_naive] comes right after a backslash. *)
Theorem X12_markdown_naive_escapes_every_dollar
    text tokens bg_color w before after :
  fst (markdown_naive text tokens bg_color w) = before ++ dollar :: after ->
  exists before', before = before' ++ [backslash].
Proof.
  unfold markdown_naive, bind, print, emit, ret. cbn [fst].
  rewrite str_replace_char. apply escaped_dollars_preceded.
Qed.

Lemma X12_markdown_naive_witness :
  fst (markdown_naive (lit "pay $5") [] None [])
  = lit "pay \" ++ dollar :: lit "5"
  /\ exists before', lit "pay \" = before' ++ [backslash].
Proof.
  split; [reflexivity|].
  exact (X12_markdown_naive_escapes_every_dollar (lit "pay $5") [] None []
           (lit "pay \") (lit "5") eq_refl).
Defined.

Lemma replace_from_absent old new s :
  contains s old = false -> replace_from old new 0 s = s.
Proof.
  induction s as [|c s IH]; [reflexivity|].
  cbn [contains replace_from]. intros Hno.
  apply orb_false_iff in Hno as [Hstart Hrest].
  rewrite Hstart, (IH Hrest). reflexivity.
Qed.

Lemma str_replace_absent s old new :
  contains s old = false -> str_replace s old new = s.
Proof.
  intros Hno. destruct old as [|c old].
  - destruct s; discriminate Hno.
  - apply replace_from_absent, Hno.
Qed.

(** X13: when no token occurs in the text and the text has no dollar sign,
    [markdown_naive] returns the text as it is. *)
Theorem X13_markdown_naive_nothing_to_mark text tokens bg_color w :
  Forall (fun t => contains text t = false) tokens ->
  contains text [dollar] = false ->
  fst (markdown_naive text tokens bg_color w) = text.
Proof.
  intros Htokens Hdollar.
  unfold markdown_naive, bind, print, emit, ret. cbn [fst].
  assert (Hloop : markdown_naive_loop text tokens bg_color = text).
  { induction Htokens as [|t tokens Ht _ IH]; simpl; [reflexivity|].
    rewrite (str_replace_absent text t _ Ht). exact IH. }
  rewrite Hloop. apply str_replace_absent, Hdollar.
Qed.

Lemma X13_markdown_naive_nothing_witness :
  Forall (fun t => contains UtilsTextModel.prospectus t = false)
    [lit "bond"; lit "yield"]
  /\ contains UtilsTextModel.prospectus [dollar] = false
  /\ fst (markdown_naive UtilsTextModel.prospectus [lit "bond"; lit "yield"]
            (Some (lit "red")) [])
     = UtilsTextModel.prospectus.
Proof.
  assert (Htokens : Forall (fun t => contains UtilsTextModel.prospectus t
                                     = false) [lit "bond"; lit "yield"]).
  { constructor; [vm_compute; reflexivity|].
    constructor; [vm_compute; reflexivity|]. constructor. }
  assert (Hdollar : contains UtilsTextModel.prospectus [dollar] = false)
    by (vm_compute; reflexivity).
  split; [exact Htokens|]. split; [exact Hdollar|].
  exact (X13_markdown_naive_nothing_to_mark UtilsTextModel.prospectus
           [lit "bond"; lit "yield"] (Some (lit "red")) [] Htokens Hdollar).
Defined.

(** ** [os.path.splitext] and [save_uploaded_file] *)

Lemma slice_empty (p : str) : slice p 0 (Some 0) = [].
Proof. rewrite slice_substring by lia. reflexivity. Qed.

Lemma slice_split (p : str) d :
  0 <= d -> slice p 0 (Some d) ++ slice p d None = p.
Proof.
  intros Hd. rewrite slice_substring, slice_tail by lia.
  apply (substring_drop p 0 d); lia.
Qed.

Lemma slice_at (p : str) k x :
  0 <= k -> p !! Z.to_nat k = Some x -> slice p k (Some (k + 1)) = [x].
Proof.
  intros Hk Hx. rewrite slice_substring by lia. unfold substring.
  replace (Z.to_nat (k + 1) - Z.to_nat k)%nat with 1%nat by lia.
  rewrite (drop_S p x (Z.to_nat k) Hx). reflexivity.
Qed.

Lemma rfind_from_absent c s i last :
  c ∉ s -> rfind_from c s i last = last.
Proof.
  revert i last. induction s as [|x s IH]; intros i last Hc; simpl.
  - reflexivity.
  - apply not_elem_of_cons in Hc as [Hx Hs].
    rewrite IH by exact Hs. destruct (decide (x = c)); congruence.
Qed.

Lemma rfind_from_app c a b i last :
  rfind_from c (a ++ b) i last
  = rfind_from c b (i + Z.of_nat (length a)) (rfind_from c a i last).
Proof.
  revert i last. induction a as [|x a IH]; intros i last; simpl.
  - f_equal. lia.
  - rewrite IH. f_equal. lia.
Qed.

Lemma rfind_last c before after :
  c ∉ after -> rfind (before ++ c :: after) c = Z.of_nat (length before).
Proof.
  intros Hc. unfold rfind. rewrite rfind_from_app. simpl.
  rewrite rfind_from_absent by exact Hc.
  destruct (decide (c = c)); [lia | contradiction].
Qed.

Lemma rfind_from_found c s :
  forall i last r,
    rfind_from c s i last = r ->
    r = last
    \/ (i <= r < i + Z.of_nat (length s) /\ s !! Z.to_nat (r - i) = Some c).
Proof.
  induction s as [|x s IH]; intros i last r Hr; simpl in Hr.
  - left. symmetry. exact Hr.
  - destruct (IH _ _ _ Hr) as [Hlast | [Hrange Hat]].
    + destruct (decide (x = c)) as [->|_]; [|left; exact Hlast].
      right. rewrite Hlast, Z.sub_diag. simpl length.
      split; [lia|reflexivity].
    + right. simpl length. split; [lia|].
      replace (Z.to_nat (r - i)) with (S (Z.to_nat (r - (i + 1)))) by lia.
      exact Hat.
Qed.

Lemma rfind_found s c :
  rfind s c = -1
  \/ (0 <= rfind s c < Z.of_nat (length s)
      /\ s !! Z.to_nat (rfind s c) = Some c).
Proof.
  destruct (rfind_from_found c s 0 (-1) (rfind s c) eq_refl)
    as [Hlast | [Hrange Hat]]; [left; exact Hlast|].
  right. rewrite Z.sub_0_r in Hat. split; [lia|exact Hat].
Qed.

Lemma splitext_loop_cases p d n :
  forall f,
    splitext_loop p d f n = (p, [])
    \/ (splitext_loop p d f n = (slice p 0 (Some d), slice p d None)
        /\ exists k, f <= k < f + Z.of_nat n
                     /\ slice p k (Some (k + 1)) <> [dot]).
Proof.
  induction n as [|n IH]; intros f; cbn [splitext_loop].
  - left. rewrite slice_empty. reflexivity.
  - destruct (bool_decide_reflect (slice p f (Some (f + 1)) = [dot]))
      as [Hdot|Hother].
    + destruct (IH (f + 1)) as [Hnone | [Hsplit (k & Hk & Hne)]];
        [left; exact Hnone|].
      right. split; [exact Hsplit|]. exists k. split; [lia|exact Hne].
    + right. split; [reflexivity|]. exists f. split; [lia|exact Hother].
Qed.

Lemma splitext_loop_found p d n :
  forall f k x,
    0 <= f -> f <= k < f + Z.of_nat n -> p !! Z.to_nat k = Some x ->
    x <> dot ->
    splitext_loop p d f n = (slice p 0 (Some d), slice p d None).
Proof.
  induction n as [|n IH]; intros f k x Hf Hk Hx Hne; [lia|].
  cbn [splitext_loop].
  destruct (bool_decide_reflect (slice p f (Some (f + 1)) = [dot]))
    as [Hdot|Hother]; [|reflexivity].
  apply (IH (f + 1) k x); try assumption; [lia|].
  destruct (Z.eq_dec k f) as [->|Hkf]; [|lia].
  rewrite (slice_at p f x) in Hdot by assumption.
  injection Hdot as ->. contradiction.
Qed.

(** The two parts [os.path.splitext] returns make up the path. *)
Lemma splitext_concat p : fst (splitext p) ++ snd (splitext p) = p.
Proof.
  unfold splitext.
  destruct (Z.ltb_spec (rfind p slash) (rfind p dot)) as [Hlt|_].
  - destruct (splitext_loop_cases p (rfind p dot)
                (Z.to_nat (rfind p dot - (rfind p slash + 1)))
                (rfind p slash + 1)) as [-> | [-> _]]; simpl.
    + apply app_nil_r.
    + apply slice_split. destruct (rfind_found p slash) as [?|[? _]]; lia.
  - rewrite slice_empty. apply app_nil_r.
Qed.

Lemma lower_char_dot c : lower_char c = dot -> c = dot.
Proof.
  destruct c as [[|] [|] [|] [|] [|] [|] [|] [|]]; vm_compute;
    intros H; first [reflexivity | discriminate H].
Qed.

Lemma rfind_no_slash p : slash ∉ p -> rfind p slash = -1.
Proof. intros Hno. apply rfind_from_absent, Hno. Qed.

Lemma splitext_pdf_name p :
  slash ∉ p -> str_lower (snd (splitext p)) = lit ".pdf" -> pdf_name p.
Proof.
  intros Hslash Hext. unfold splitext in Hext.
  rewrite (rfind_no_slash p Hslash) in Hext.
  destruct (Z.ltb_spec (-1) (rfind p dot)) as [Hlt|_];
    [|cbn [snd] in Hext; rewrite slice_empty in Hext; discriminate Hext].
  destruct (splitext_loop_cases p (rfind p dot)
              (Z.to_nat (rfind p dot - (-1 + 1))) (-1 + 1))
    as [Hnone | [Hsplit (k & Hk & Hne)]];
    rewrite ?Hnone, ?Hsplit in Hext; [discriminate Hext|].
  cbn [snd] in Hext.
  destruct (rfind_found p dot) as [Hnot | [Hrange Hdot]]; [lia|].
  assert (Hlookup : is_Some (p !! Z.to_nat k))
    by (apply lookup_lt_is_Some; lia).
  destruct Hlookup as [x Hx].
  exists (slice p 0 (Some (rfind p dot))), (slice p (rfind p dot) None).
  split; [symmetry; apply slice_split; lia|]. split; [exact Hext|].
  apply Exists_exists. exists x. split.
  - rewrite slice_substring by lia. unfold substring.
    apply list_elem_of_lookup. exists (Z.to_nat k).
    rewrite lookup_take_lt by (simpl; lia). exact Hx.
  - intros ->. apply Hne. apply slice_at; [lia|exact Hx].
Qed.

Lemma pdf_name_splitext p :
  slash ∉ p -> pdf_name p -> str_lower (snd (splitext p)) = lit ".pdf".
Proof.
  intros Hslash (stem & ext & -> & Hext & Hstem).
  destruct ext as [|x0 [|x1 [|x2 [|x3 [|x4 ext]]]]]; try discriminate Hext.
  injection Hext as H0 H1 H2 H3.
  apply lower_char_dot in H0. subst x0.
  assert (Hnodot : dot ∉ [x1; x2; x3]).
  { intros Hin. repeat (apply elem_of_cons in Hin as [<-|Hin]);
      [discriminate H1 | discriminate H2 | discriminate H3|].
    apply elem_of_nil in Hin. exact Hin. }
  apply Exists_exists in Hstem as (x & Hx & Hne).
  apply list_elem_of_lookup in Hx as (k & Hk).
  pose proof (lookup_lt_Some _ _ _ Hk) as Hklt.
  unfold splitext. rewrite (rfind_no_slash _ Hslash).
  rewrite (rfind_last dot stem [x1; x2; x3] Hnodot).
  destruct (Z.ltb_spec (-1) (Z.of_nat (length stem))) as [_|?]; [|lia].
  rewrite (splitext_loop_found _ _ _ (-1 + 1) (Z.of_nat k) x);
    [|lia|lia| |exact Hne].
  - cbn [snd]. rewrite slice_tail by lia. rewrite Nat2Z.id.
    rewrite drop_app_length. simpl. rewrite H1, H2, H3. reflexivity.
  - rewrite Nat2Z.id. apply lookup_app_l_Some. exact Hk.
Qed.

(** X14: for a file name without a slash, [save_uploaded_file] answers
    [Only PDF files are allowed.] exactly when the name is not a stem with a
    character other than a dot followed by [.pdf] in any letter case (so
    [report.PDF] passes, and [report.pdf.exe] and [.pdf] do not); in that
    case nothing is written. *)
Theorem X14_save_uploaded_file_accepts_pdf_names
    (disk : Type) (write_file : str -> str -> disk -> result unit * disk)
    (uploaded_file : uploaded) (upload_dir : str) (d : disk) :
  slash ∉ (name uploaded_file) ->
  (fst (save_uploaded_file disk write_file uploaded_file upload_dir d)
   = [st_error (lit "Only PDF files are allowed.")]
   <-> ~ pdf_name (name uploaded_file))
  /\ (~ pdf_name (name uploaded_file) ->
      snd (save_uploaded_file disk write_file uploaded_file upload_dir d)
      = d).
Proof.
  intros Hslash. unfold save_uploaded_file.
  destruct (bool_decide_reflect
              (str_lower (snd (splitext (name uploaded_file))) = lit ".pdf"))
    as [Hext|Hext].
  - pose proof (splitext_pdf_name _ Hslash Hext) as Hpdf.
    split; [|intros Hno; contradiction].
    split; [|intros Hno; contradiction].
    destruct (write_file _ _ d) as [[[]|e] d']; simpl; intros Heq;
      discriminate Heq.
  - assert (Hno : ~ pdf_name (name uploaded_file))
      by (intros Hpdf; apply Hext, pdf_name_splitext; assumption).
    split; [|intros _; reflexivity].
    split; [intros _; exact Hno | intros _; reflexivity].
Qed.

Lemma X14_save_uploaded_file_witness :
  (slash ∉ name report_upload)
  /\ (fst (save_uploaded_file unit (fun _ _ d => (Returned tt, d))
             report_upload (lit "./docs/insurance/") tt)
      = [st_error (lit "Only PDF files are allowed.")]
      <-> ~ pdf_name (name report_upload))
  /\ (~ pdf_name (name report_upload) ->
      snd (save_uploaded_file unit (fun _ _ d => (Returned tt, d))
             report_upload (lit "./docs/insurance/") tt)
      = tt).
Proof.
  assert (Hslash : slash ∉ (name report_upload)).
  { apply (bool_decide_unpack _). vm_compute. exact I. }
  split; [exact Hslash|].
  exact (X14_save_uploaded_file_accepts_pdf_names unit
           (fun _ _ d => (Returned tt, d)) report_upload
           (lit "./docs/insurance/") tt Hslash).
Defined.

Lemma endswith_app_same_length (a b suffix : str) :
  length b = length suffix ->
  endswith (a ++ b) suffix = bool_decide (b = suffix).
Proof.
  intros Hlen. unfold endswith. rewrite length_app.
  rewrite (proj2 (Nat.leb_le _ _)) by lia. simpl.
  replace (length a + length b - length suffix)%nat with (length a) by lia.
  rewrite drop_app_length. reflexivity.
Qed.

Lemma path_join_suffix a b : exists pre, path_join a b = pre ++ b.
Proof.
  unfold path_join. destruct (startswith b [slash]); [exists []; reflexivity|].
  destruct (no_chars a || endswith a [slash]).
  - exists a. reflexivity.
  - exists (a ++ [slash]). rewrite <- app_assoc. reflexivity.
Qed.

(** X15: a file that [save_uploaded_file] accepts is offered in the document
    box (line 224) only when its extension is [.pdf] in lower case: the
    upload test ignores the letter case, the listing does not, so a saved
    [report.PDF] never shows up. *)
Theorem X15_saved_file_listed_iff_lower_case
    document_repo_file_path listdocs uploaded_name :
  str_lower (snd (splitext uploaded_name)) = lit ".pdf" ->
  In uploaded_name listdocs ->
  (In (path_join document_repo_file_path uploaded_name)
      (pdf_docs document_repo_file_path listdocs)
   <-> snd (splitext uploaded_name) = lit ".pdf").
Proof.
  intros Hext Hin.
  assert (Hends :
    endswith (path_join document_repo_file_path uploaded_name) (lit ".pdf")
    = bool_decide (snd (splitext uploaded_name) = lit ".pdf")).
  { destruct (path_join_suffix document_repo_file_path uploaded_name)
      as (pre & ->).
    rewrite <- (splitext_concat uploaded_name) at 1. rewrite app_assoc.
    apply endswith_app_same_length.
    apply (f_equal length) in Hext. unfold str_lower in Hext.
    rewrite length_map in Hext. exact Hext. }
  unfold pdf_docs. rewrite filter_In, Hends. split.
  - intros [_ Hdec]. apply bool_decide_eq_true in Hdec. exact Hdec.
  - intros Heq. split; [apply in_map, Hin|].
    apply bool_decide_eq_true. exact Heq.
Qed.

Lemma X15_saved_file_listed_witness :
  str_lower (snd (splitext (lit "report.PDF"))) = lit ".pdf"
  /\ In (lit "report.PDF") [lit "questions.json"; lit "report.PDF"]
  /\ (In (path_join (lit "./docs/insurance/") (lit "report.PDF"))
         (pdf_docs (lit "./docs/insurance/")
            [lit "questions.json"; lit "report.PDF"])
      <-> snd (splitext (lit "report.PDF")) = lit ".pdf").
Proof.
  assert (Hext : str_lower (snd (splitext (lit "report.PDF"))) = lit ".pdf")
    by (vm_compute; reflexivity).
  assert (Hin : In (lit "report.PDF") [lit "questions.json"; lit "report.PDF"])
    by (right; left; reflexivity).
  split; [exact Hext|]. split; [exact Hin|].
  exact (X15_saved_file_listed_iff_lower_case (lit "./docs/insurance/")
           [lit "questions.json"; lit "report.PDF"] (lit "report.PDF")
           Hext Hin).
Defined.

Lemma endswith_lower s suffix :
  endswith s suffix = true ->
  endswith (str_lower s) (str_lower suffix) = true.
Proof.
  unfold endswith, str_lower. rewrite !length_map.
  intros Hends. apply andb_true_iff in Hends as [Hlen Hdrop].
  apply bool_decide_eq_true in Hdrop.
  rewrite Hlen. simpl. apply bool_decide_eq_true.
  rewrite <- Hdrop at 2. rewrite <- skipn_map. reflexivity.
Qed.

(** X16: every document offered in the document box passes the test of
    line 232, [doc_path.lower().endswith(".pdf")]. *)
Theorem X16_listed_docs_pass_the_pdf_test
    document_repo_file_path listdocs doc :
  In doc (pdf_docs document_repo_file_path listdocs) ->
  endswith (str_lower doc) (lit ".pdf") = true.
Proof.
  unfold pdf_docs. rewrite filter_In. intros [_ Hends].
  apply (endswith_lower doc (lit ".pdf")), Hends.
Qed.

Lemma X16_listed_docs_witness :
  In (lit "./docs/mutual_fund/fund.pdf")
    (pdf_docs (lit "./docs/mutual_fund/") [lit "fund.pdf"])
  /\ endswith (str_lower (lit "./docs/mutual_fund/fund.pdf")) (lit ".pdf")
     = true.
Proof.
  assert (Hin : In (lit "./docs/mutual_fund/fund.pdf")
                  (pdf_docs (lit "./docs/mutual_fund/") [lit "fund.pdf"]))
    by (left; reflexivity).
  split; [exact Hin|].
  exact (X16_listed_docs_pass_the_pdf_test (lit "./docs/mutual_fund/")
           [lit "fund.pdf"] (lit "./docs/mutual_fund/fund.pdf") Hin).
Defined.

(** ** The miss tokens and the second pass of [main] *)

Lemma tokens_miss_empty text_tokenizer ground_truth :
  tokens_miss text_tokenizer ground_truth = ∅.
Proof.
  unfold tokens_miss.
  destruct ground_truth as [[|c s]|]; simpl;
    first [apply difference_diag_L | apply empty_difference_L].

Qed.

(** X17: the set of miss tokens computed at lines 311-313 is empty for every
    tokenizer and every ground truth: the labels are tokenized from the same
    string as the answer, or not at all. *)
Theorem X17_tokens_miss_is_empty text_tokenizer ground_truth :
  tokens_miss text_tokenizer ground_truth = ∅.
Proof. apply tokens_miss_empty. Qed.

Lemma located_nothing U text :
  (forall t, search U t text [] = []) -> located U text [] = [].
Proof.
  intros Hnone. unfold located.
  rewrite (Hnone Ordered : spans_of_tokens_ordered U text [] = []).
  rewrite (Hnone Compact : spans_of_tokens_compact U text [] = []).
  rewrite (Hnone AllOccurrences : spans_of_tokens_all U text [] = []).
  reflexivity.
Qed.

(** X18: hence the second pass of [main], the one in red, is made with no
    token at all; when the searches find nothing for no token in the text
    the first pass returns, the markup shown is the output of the first
    pass. *)
Theorem X18_miss_pass_changes_nothing U text_tokenizer ground_truth all_text w :
  (forall t,
     search U t
       (fst (markdown2 U (markdown_escape all_text)
               (text_tokenizer ground_truth) None (Some (lit "#90EE90")) w))
       [] = []) ->
  fst (highlight_evidence U all_text (text_tokenizer ground_truth)
         (elements (tokens_miss text_tokenizer ground_truth)) w)
  = fst (markdown2 U (markdown_escape all_text)
           (text_tokenizer ground_truth) None (Some (lit "#90EE90")) w).
Proof.
  intros Hnone. rewrite tokens_miss_empty, elements_empty.
  unfold highlight_evidence, bind, print, emit, ret.
  rewrite markdown2_run in Hnone |- *. cbn [fst] in Hnone |- *.
  rewrite markdown2_run. cbn [fst].
  rewrite (located_nothing U _ Hnone). apply markdown2_output_nil.
Qed.

Lemma X18_miss_pass_witness :
  (forall t,
     search UtilsTextModel.utils t
       (fst (markdown2 UtilsTextModel.utils
               (markdown_escape UtilsTextModel.prospectus)
               (words_of (Some (lit "expense ratio"))) None
               (Some (lit "#90EE90")) []))
       [] = [])
  /\ fst (highlight_evidence UtilsTextModel.utils UtilsTextModel.prospectus
            (words_of (Some (lit "expense ratio")))
            (elements (tokens_miss words_of (Some (lit "expense ratio")))) [])
     = fst (markdown2 UtilsTextModel.utils
              (markdown_escape UtilsTextModel.prospectus)
              (words_of (Some (lit "expense ratio"))) None
              (Some (lit "#90EE90")) []).
Proof.
  assert (Hnone :
    forall t,
      search UtilsTextModel.utils t
        (fst (markdown2 UtilsTextModel.utils
                (markdown_escape UtilsTextModel.prospectus)
                (words_of (Some (lit "expense ratio"))) None
                (Some (lit "#90EE90")) []))
        [] = [])
    by (intros [| |]; vm_compute; reflexivity).
  split; [exact Hnone|].
  exact (X18_miss_pass_changes_nothing UtilsTextModel.utils words_of
           (Some (lit "expense ratio")) UtilsTextModel.prospectus [] Hnone).
Defined.

(** ** Overlapping spans *)

Lemma slice_backwards (text : str) a b :
  0 <= b -> b <= a -> slice text a (Some b) = [].
Proof.
  intros Hb Hba. unfold slice. cbv zeta.
  rewrite !slice_bound_nonneg by lia.
  replace (Z.to_nat (b `min` Z.of_nat (length text)
                     - a `min` Z.of_nat (length text))) with 0%nat by lia.
  reflexivity.
Qed.

Lemma substring_split (text : str) a b c :
  0 <= a -> a <= b -> b <= c ->
  substring text a c = substring text a b ++ substring text b c.
Proof.
  intros Ha Hab Hbc.
  apply (app_inv_tail (drop (Z.to_nat c) text)).
  rewrite <- app_assoc, !substring_drop by lia. reflexivity.
Qed.

Lemma substring_length (text : str) a b :
  0 <= a -> a <= b -> b <= Z.of_nat (length text) ->
  Z.of_nat (length (substring text a b)) = b - a.
Proof.
  intros Ha Hab Hb. unfold substring.
  rewrite length_take, length_drop. lia.
Qed.

(** X19: [markdown2] does not merge spans.  When the second span starts
    inside the first one, the characters the two have in common are written
    twice, once inside each marker, so the output without its markers is
    longer than the text. *)
Theorem X19_overlapping_spans_repeat_text
    text i1 j1 i2 j2 fg_color bg_color :
  0 <= i1 -> i1 <= i2 -> i2 < j1 -> j1 <= j2 ->
  j1 <= Z.of_nat (length text) ->
  markdown2_output text [(i1, j1); (i2, j2)] fg_color bg_color
  = substring text 0 i1
    ++ marker fg_color bg_color
         (substring text i1 i2 ++ substring text i2 j1)
    ++ marker fg_color bg_color
         (substring text i2 j1 ++ substring text j1 j2)
    ++ drop (Z.to_nat j2) text
  /\ Z.of_nat (length (substring text i2 j1)) = j1 - i2.
Proof.
  intros H1 H2 H3 H4 H5. split; [|apply substring_length; lia].
  rewrite markdown2_output_wrap. cbn [wrap_spans].
  rewrite (slice_backwards text j1 i2) by lia.
  rewrite !slice_substring, slice_tail by lia.
  rewrite <- (substring_split text i1 i2 j1) by lia.
  rewrite <- (substring_split text i2 j1 j2) by lia.
  reflexivity.
Qed.

Lemma X19_overlapping_spans_witness :
  0 <= 29 /\ 29 <= 37 /\ 37 < 42 /\ 42 <= 46
  /\ 42 <= Z.of_nat (length UtilsTextModel.prospectus)
  /\ markdown2_output UtilsTextModel.prospectus [(29, 42); (37, 46)] None
       (Some (lit "red"))
     = substring UtilsTextModel.prospectus 0 29
       ++ marker None (Some (lit "red"))
            (substring UtilsTextModel.prospectus 29 37
             ++ substring UtilsTextModel.prospectus 37 42)
       ++ marker None (Some (lit "red"))
            (substring UtilsTextModel.prospectus 37 42
             ++ substring UtilsTextModel.prospectus 42 46)
       ++ drop (Z.to_nat 46) UtilsTextModel.prospectus
  /\ Z.of_nat (length (substring UtilsTextModel.prospectus 37 42)) = 42 - 37.
Proof.
  assert (H1 : 0 <= 29) by lia. assert (H2 : 29 <= 37) by lia.
  assert (H3 : 37 < 42) by lia. assert (H4 : 42 <= 46) by lia.
  assert (H5 : 42 <= Z.of_nat (length UtilsTextModel.prospectus))
    by (vm_compute; discriminate).
  repeat (split; [assumption|]).
  exact (X19_overlapping_spans_repeat_text UtilsTextModel.prospectus
           29 42 37 46 None (Some (lit "red")) H1 H2 H3 H4 H5).
Defined.

(** X20: a span that starts at or after the end of the text is no error:
    the text is returned whole, followed by a marker around nothing. *)
Theorem X20_span_past_the_end text i j fg_color bg_color :
  Z.of_nat (length text) <= i -> i <= j ->
  markdown2_output text [(i, j)] fg_color bg_color
  = text ++ marker fg_color bg_color [].
Proof.
  intros Hi Hij. rewrite markdown2_output_wrap. cbn [wrap_spans].
  rewrite !slice_substring, slice_tail by lia. unfold substring.
  rewrite (skipn_all2 (n := Z.to_nat i)) by lia.
  rewrite (skipn_all2 (n := Z.to_nat j)) by lia.
  rewrite firstn_nil, app_nil_r.
  change (Z.to_nat 0) with 0%nat. rewrite drop_0, Nat.sub_0_r.
  rewrite firstn_all2 by lia. reflexivity.
Qed.

Lemma X20_span_past_the_end_witness :
  Z.of_nat (length (lit "fund")) <= 4 /\ 4 <= 9
  /\ markdown2_output (lit "fund") [(4, 9)] None (Some (lit "red"))
     = lit "fund" ++ marker None (Some (lit "red")) [].
Proof.
  assert (Hi : Z.of_nat (length (lit "fund")) <= 4) by (vm_compute; discriminate).
  assert (Hij : 4 <= 9) by lia.
  split; [exact Hi|]. split; [exact Hij|].
  exact (X20_span_past_the_end (lit "fund") 4 9 None (Some (lit "red"))
           Hi Hij).
Defined.

(** X21: an upload whose name has no slash and is a PDF name is written
    once, at [os.path.join(upload_dir, name)]; a write that raises is not
    passed on but shown as an error, with the disk as the failed write left
    it. *)
Theorem X21_save_uploaded_file_writes_pdf
    (disk : Type) (write_file : str -> str -> disk -> result unit * disk)
    (uploaded_file : uploaded) (upload_dir : str) (d : disk) :
  slash ∉ (name uploaded_file) -> pdf_name (name uploaded_file) ->
  save_uploaded_file disk write_file uploaded_file upload_dir d
  = match
      write_file (path_join upload_dir (name uploaded_file))
        (getbuffer uploaded_file) d
    with
    | (Returned _, d') =>
        ([st_success (lit "File '" ++ name uploaded_file
                      ++ lit "' uploaded successfully!")], d')
    | (Raised e, d') => ([st_error (lit "Error uploading file: " ++ e)], d')
    end.
Proof.
  intros Hslash Hpdf. unfold save_uploaded_file.
  rewrite (pdf_name_splitext _ Hslash Hpdf).
  rewrite bool_decide_eq_true_2 by reflexivity. reflexivity.
Qed.

Lemma report_upload_pdf_name : pdf_name (name report_upload).
Proof.
  exists (lit "report"), (lit ".PDF"). split; [reflexivity|].
  split; [reflexivity|]. left. discriminate.
Qed.

Lemma X21_save_uploaded_file_writes_witness :
  (slash ∉ name report_upload) /\ pdf_name (name report_upload)
  /\ save_uploaded_file unit full_disk
       report_upload (lit "./docs/insurance/") tt
     = match
         full_disk (path_join (lit "./docs/insurance/") (name report_upload))
           (getbuffer report_upload) tt
       with
       | (Returned _, d') =>
           ([st_success (lit "File '" ++ name report_upload
                         ++ lit "' uploaded successfully!")], d')
       | (Raised e, d') => ([st_error (lit "Error uploading file: " ++ e)], d')
       end.
Proof.
  assert (Hslash : slash ∉ (name report_upload)).
  { apply (bool_decide_unpack _). vm_compute. exact I. }
  split; [exact Hslash|]. split; [exact report_upload_pdf_name|].
  exact (X21_save_uploaded_file_writes_pdf unit
           full_disk report_upload
           (lit "./docs/insurance/") tt Hslash report_upload_pdf_name).
Defined.

(** X23: selecting a numbered question that does not contain [Ask] and does
    not begin with a digit, a dot or white space makes that question,
    stripped, the query, whatever is typed into the input box. *)
Theorem X23_listed_question_is_the_query i c q typed :
  heading_char c = false -> contains (c :: q) (lit "Ask") = false ->
  chosen_query (str_of_nat i ++ lit ". " ++ c :: q) typed
  = Some (str_strip (c :: q)).
Proof.
  intros Hc Hask. unfold chosen_query. rewrite clean_question_numbered.
  unfold clean_question. cbn [lstrip_class]. rewrite Hc, Hask. reflexivity.
Qed.

Lemma X23_listed_question_witness :
  heading_char "W"%char = false
  /\ contains ("W"%char :: lit "hat is the expense ratio? ") (lit "Ask")
     = false
  /\ chosen_query
       (str_of_nat 2 ++ lit ". "
        ++ "W"%char :: lit "hat is the expense ratio? ") (lit "typed")
     = Some (str_strip ("W"%char :: lit "hat is the expense ratio? ")).
Proof.
  split; [reflexivity|]. split; [reflexivity|].
  exact (X23_listed_question_is_the_query 2 "W"%char
           (lit "hat is the expense ratio? ") (lit "typed") eq_refl eq_refl).
Defined.

(** X4: the text [markdown_escape] returns contains none of the six markup
    characters. *)
Theorem X4_markdown_escape_leaves_no_markup_char text c :
  In c (markdown_escape text) -> markup_char c = false.
Proof.
  intros Hin.
  pose proof (markdown_escape_keeps_no_markup_char text) as Hall.
  rewrite List.Forall_forall in Hall. apply Hall, Hin.
Qed.

Lemma X4_markdown_escape_witness :
  In backslash (markdown_escape (lit "$5")) /\ markup_char backslash = false.
Proof.
  assert (Hin : In backslash (markdown_escape (lit "$5")))
    by (left; reflexivity).
  split; [exact Hin|].
  exact (X4_markdown_escape_leaves_no_markup_char (lit "$5") backslash Hin).
Defined.
